(** * pyDFCSR_2D.beams: the [Beam] container and its wake kick

    A shallow embedding of [src/pyDFCSR_2D/beams.py].

    Numbers.  The program computes on float64 numpy arrays.  Here every
    float is an exact rational ([Qc], canonical fractions with Leibniz
    equality), so the theorems speak about the arithmetic the program
    aims at, not about rounding, NaN or infinity.  Where numpy produces
    NaN out of a division 0/0 and a later routine rejects it, the model
    raises the exception of that routine.  A quotient by 0 is 0 in [Qc]
    and infinite or NaN in numpy: a statement about a quotient takes its
    divisor to be other than 0.

    Exceptions and mutation.  A method of [Beam] is a function from the
    object's state to an outcome (a value or a raised exception) and the
    state the object is left in, so that "raised before any mutation" is
    a statement about the second component. *)

From Stdlib Require Import QArith Qcanon Lia.
From stdpp Require Import gmap strings list numbers.

Open Scope Qc_scope.

(** ** Python outcomes *)

Module Py.

(** The exception classes the code can raise.  Messages keep their
    static text (f-string holes are left out). *)
Inductive exn : Type :=
| AssertionError (msg : string)
| Exception (msg : string)
| KeyError (key : string)
| IndexError (msg : string)
| ValueError (msg : string)
| TypeError (msg : string)
| LinAlgError (msg : string)
| OtherError (msg : string).

Inductive outcome (A : Type) : Type :=
| Return (a : A)
| Raise (e : exn).
Arguments Return {A} a.
Arguments Raise {A} e.

Definition bind {A B} (o : outcome A) (k : A -> outcome B) : outcome B :=
  match o with
  | Return a => k a
  | Raise e => Raise e
  end.

(** [assert c, msg] *)
Definition assert (c : bool) (msg : string) : outcome unit :=
  if c then Return tt else Raise (AssertionError msg).

(** [for a in l: body(a)], stopping at the first exception *)
Fixpoint for_ {A} (l : list A) (body : A -> outcome unit) : outcome unit :=
  match l with
  | [] => Return tt
  | a :: l' => bind (body a) (fun _ => for_ l' body)
  end.

Definition raises {A} (o : outcome A) : Prop :=
  match o with Raise _ => True | Return _ => False end.

#[global] Instance exn_eq_dec : EqDecision exn.
Proof. solve_decision. Defined.
#[global] Instance outcome_eq_dec {A} `{EqDecision A} : EqDecision (outcome A).
Proof. solve_decision. Defined.

End Py.
Import Py.

Declare Scope py_scope.
Delimit Scope py_scope with py.
Notation "x <- c ;; k" := (Py.bind c (fun x => k))
  (at level 100, c at next level, right associativity) : py_scope.
Notation "c ;;; k" := (Py.bind c (fun _ => k))
  (at level 100, right associativity) : py_scope.

(** ** numpy *)

Module Np.

Definition of_nat (n : nat) : Qc := Qc_of_Z (Z.of_nat n).

(** [np.sum] over a 1-D array *)
Definition sum (a : list Qc) : Qc := foldr Qcplus 0 a.

(** [np.mean]: the sum over the number of elements (of an empty array
    numpy makes NaN, with a warning). *)
Definition mean (a : list Qc) : Qc := sum a / of_nat (length a).

(** elementwise [a + b], [a - b], [a * b] on arrays of one length
    (numpy refuses two arrays of different lengths, unless one has a
    single entry; the columns of an ensemble have one length, and the
    statements about results say so) *)
Definition add (a b : list Qc) : list Qc := zip_with Qcplus a b.
Definition sub (a b : list Qc) : list Qc := zip_with Qcminus a b.
Definition mul (a b : list Qc) : list Qc := zip_with Qcmult a b.

(** [np.polyval(p, z)] for a scalar [z]: Horner's rule,
    [y = 0; for pv in p: y = y * z + pv]. *)
Definition polyval1 (p : list Qc) (z : Qc) : Qc :=
  fold_left (fun y pv => y * z + pv) p 0.

Definition polyval (p : list Qc) (z : list Qc) : list Qc :=
  map (polyval1 p) z.

(** [np.polyfit(z, x, deg=1)].

    numpy checks its arguments (an empty [z], or [x] of another length,
    is a [TypeError]), builds the Vandermonde matrix with columns
    [z] and [1], divides each column by its Euclidean norm, solves the
    scaled system with [lstsq] and divides the solution by the norms.

    - When the columns are independent ([n * sum z^2 <> (sum z)^2]) the
      result is the solution of the normal equations.
    - When they are not (all [z] are one value [c]; a single particle is
      such a case) [lstsq] returns the solution of least norm of the
      scaled system and numpy only warns ([RankWarning]); for [c <> 0]
      that solution, unscaled, is [(mean x / (2c), mean x / 2)].
    - When all [z] are 0 the first column has norm 0, the division
      makes it NaN and [lstsq] fails with [LinAlgError]. *)
Definition polyfit (z x : list Qc) : outcome (Qc * Qc) :=
  match z with
  | [] => Raise (TypeError "expected non-empty vector for x")
  | c :: _ =>
      if negb (length z =? length x)%nat
      then Raise (TypeError "expected x and y to have same length")
      else
        let n := of_nat (length z) in
        let sz := sum z in
        let szz := sum (mul z z) in
        let sx := sum x in
        let sxz := sum (mul x z) in
        let det := n * szz - sz * sz in
        if bool_decide (det = 0) then
          if bool_decide (szz = 0)
          then Raise (LinAlgError "SVD did not converge in Linear Least Squares")
          else Return (mean x / (2 * c), mean x / 2)
        else
          let a := (n * sxz - sz * sx) / det in
          Return (a, (sx - a * sz) / n)
  end.

End Np.

(** ** scipy.interpolate *)

Module Scipy.

(** A 2-D array is the list of its rows; a numpy array is rectangular,
    so its shape is the number of rows and the length of a row. *)
Definition shape (values : list (list Qc)) : nat * nat :=
  (length values, length (default [] (head values))).

Definition item (values : list (list Qc)) (i j : nat) : Qc :=
  nth j (nth i values []) 0.

(** [np.all(np.diff(p) > 0.)] *)
Fixpoint strictly_ascending (p : list Qc) : bool :=
  match p with
  | a :: (b :: _) as t => bool_decide (a < b) && strictly_ascending t
  | _ => true
  end.

(** The interpolator object, as built with [bounds_error=False]. *)
Record interpolator : Type := Interpolator {
  grid : list Qc * list Qc;
  values : list (list Qc);
  fill_value : Qc
}.

(** The constructor's checks of one axis against one dimension of
    [values]; both failures are a [ValueError]. *)
Definition check_axis (p : list Qc) (len : nat) : outcome unit :=
  if negb (strictly_ascending p)
  then Raise (ValueError "The points in dimension must be strictly ascending")
  else if negb (len =? length p)%nat
  then Raise (ValueError "There are points and values in dimension")
  else Return tt.

(** [RegularGridInterpolator((xrange, zrange), values, fill_value=fill,
    bounds_error=False)].  The axes have to be strictly ascending (later
    releases of scipy also take a strictly descending axis). *)
Definition RegularGridInterpolator (points : list Qc * list Qc)
    (vals : list (list Qc)) (fill : Qc) : outcome interpolator :=
  (check_axis (fst points) (fst (shape vals)) ;;;
   check_axis (snd points) (snd (shape vals)) ;;;
   Return (Interpolator points vals fill))%py.

(** [np.searchsorted(a, v)] on an ascending array: the number of
    entries below [v]. *)
Fixpoint searchsorted (a : list Qc) (v : Qc) : nat :=
  match a with
  | [] => O
  | e :: a' => if bool_decide (e < v) then S (searchsorted a' v) else O
  end.

(** [_find_indices] for one axis: the cell index
    [i = searchsorted(grid, x) - 1] clipped to [0 .. size - 2], the
    normalised distance to the cell's lower edge and whether [x] is out
    of bounds, [x < grid[0] or x > grid[-1]]. *)
Definition cell (g : list Qc) (x : Qc) : nat :=
  Nat.min (Nat.pred (searchsorted g x)) (length g - 2).

Definition norm_distance (g : list Qc) (x : Qc) : Qc :=
  let i := cell g x in
  (x - nth i g 0) / (nth (S i) g 0 - nth i g 0).

Definition out_of_bounds (g : list Qc) (x : Qc) : bool :=
  bool_decide (x < nth 0 g 0) || bool_decide (List.last g 0 < x).
Arguments out_of_bounds g x : simpl never.

(** [_evaluate_linear] at one point: the four corners of the cell,
    each weighted by the product over the axes of [1 - y] (lower edge)
    or [y] (upper edge). *)
Definition evaluate_linear (f : interpolator) (xi : Qc * Qc) : Qc :=
  let '(gx, gz) := grid f in
  let i := cell gx (fst xi) in
  let j := cell gz (snd xi) in
  let yx := norm_distance gx (fst xi) in
  let yz := norm_distance gz (snd xi) in
  0 + item (values f) i j * (1 * (1 - yx) * (1 - yz))
    + item (values f) i (S j) * (1 * (1 - yx) * yz)
    + item (values f) (S i) j * (1 * yx * (1 - yz))
    + item (values f) (S i) (S j) * (1 * yx * yz).

(** [interp(xi)] for one point, then for an array of points:
    [result[out_of_bounds] = fill_value]. *)
Definition call1 (f : interpolator) (xi : Qc * Qc) : Qc :=
  if out_of_bounds (fst (grid f)) (fst xi)
     || out_of_bounds (snd (grid f)) (snd xi)
  then fill_value f
  else evaluate_linear f xi.

Definition call (f : interpolator) (xi : list (Qc * Qc)) : list Qc :=
  map (call1 f) xi.

End Scipy.

(** ** bmadx.Particle *)

Module Particle.
Record t : Type := Particle {
  x : list Qc; px : list Qc;
  y : list Qc; py : list Qc;
  z : list Qc; pz : list Qc;
  s : Qc; p0c : Qc; mc2 : Qc
}.
End Particle.

(** ** beams.py *)

(** What a Python dictionary of settings holds. *)
Inductive value : Type :=
| VStr (v : string)
| VFloat (v : Qc)
| VBool (v : bool).

#[global] Instance value_eq_dec : EqDecision value.
Proof. solve_decision. Defined.

(** [d[k]] *)
Definition getitem (d : gmap string value) (k : string) : outcome value :=
  match d !! k with
  | Some v => Return v
  | None => Raise (KeyError k)
  end.

(** A setting used as a number ([energy / MC2]): a Python bool counts as
    0 or 1, arithmetic on a string is a [TypeError]. *)
Definition as_float (v : value) : outcome Qc :=
  match v with
  | VFloat f => Return f
  | VBool c => Return (if c then 1 else 0)
  | VStr _ => Raise (TypeError "unsupported operand type(s) for /")
  end.

(** What [np.loadtxt] returns: a file of one row or of one column comes
    back as a 1-D array. *)
Inductive ndarray : Type :=
| Array1 (v : list Qc)
| Array2 (rows : list (list Qc)).

(** [coords.shape[1]] *)
Definition shape_1 (coords : ndarray) : outcome nat :=
  match coords with
  | Array1 _ => Raise (IndexError "tuple index out of range")
  | Array2 rows => Return (snd (Scipy.shape rows))
  end.

(** [coords.T[k]], the [k]-th column *)
Definition column (coords : ndarray) (k : nat) : list Qc :=
  match coords with
  | Array1 v => []
  | Array2 rows => map (fun r => nth k r 0) rows
  end.

Definition e6 : Qc := Qc_of_Z 1000000.

Record Beam : Type := mkBeam {
  input_beam_config : gmap string value;
  style : value;
  required_inputs : list string;
  _charge : value;
  _init_energy : Qc;
  particle : Particle.t;
  _init_gamma : Qc;
  position : Qc;
  step : nat;
  (* set by update_status; None while the attribute does not exist *)
  _sigma_x : option Qc;
  _sigma_z : option Qc;
  _slope : option (Qc * Qc);
  _mean_x : option Qc;
  _mean_z : option Qc
}.

(** A method body: from the object's state to what the call returns or
    raises, and the state it leaves. *)
Definition M (A : Type) : Type := Beam -> outcome A * Beam.

Definition ret {A} (a : A) : M A := fun b => (Return a, b).
Definition mbind_ {A B} (m : M A) (k : A -> M B) : M B :=
  fun b => match m b with
           | (Return a, b') => k a b'
           | (Raise e, b') => (Raise e, b')
           end.
Definition lift {A} (f : Beam -> outcome A) : M A := fun b => (f b, b).
Definition read {A} (f : Beam -> A) : M A := fun b => (Return (f b), b).
Definition modify (f : Beam -> Beam) : M unit := fun b => (Return tt, f b).

Declare Scope beam_scope.
Delimit Scope beam_scope with beam.
Notation "x <- c ;; k" := (mbind_ c (fun x => k))
  (at level 100, c at next level, right associativity) : beam_scope.
Notation "c ;;; k" := (mbind_ c (fun _ => k))
  (at level 100, right associativity) : beam_scope.

(** Attribute assignments [self.attr = v]. *)
Definition set_particle (v : Particle.t) (b : Beam) : Beam :=
  mkBeam (input_beam_config b) (style b) (required_inputs b) (_charge b)
    (_init_energy b) v (_init_gamma b) (position b) (step b)
    (_sigma_x b) (_sigma_z b) (_slope b) (_mean_x b) (_mean_z b).
Definition set_position (v : Qc) (b : Beam) : Beam :=
  mkBeam (input_beam_config b) (style b) (required_inputs b) (_charge b)
    (_init_energy b) (particle b) (_init_gamma b) v (step b)
    (_sigma_x b) (_sigma_z b) (_slope b) (_mean_x b) (_mean_z b).
Definition set_step (v : nat) (b : Beam) : Beam :=
  mkBeam (input_beam_config b) (style b) (required_inputs b) (_charge b)
    (_init_energy b) (particle b) (_init_gamma b) (position b) v
    (_sigma_x b) (_sigma_z b) (_slope b) (_mean_x b) (_mean_z b).
Definition set__sigma_x (v : Qc) (b : Beam) : Beam :=
  mkBeam (input_beam_config b) (style b) (required_inputs b) (_charge b)
    (_init_energy b) (particle b) (_init_gamma b) (position b) (step b)
    (Some v) (_sigma_z b) (_slope b) (_mean_x b) (_mean_z b).
Definition set__sigma_z (v : Qc) (b : Beam) : Beam :=
  mkBeam (input_beam_config b) (style b) (required_inputs b) (_charge b)
    (_init_energy b) (particle b) (_init_gamma b) (position b) (step b)
    (_sigma_x b) (Some v) (_slope b) (_mean_x b) (_mean_z b).
Definition set__slope (v : Qc * Qc) (b : Beam) : Beam :=
  mkBeam (input_beam_config b) (style b) (required_inputs b) (_charge b)
    (_init_energy b) (particle b) (_init_gamma b) (position b) (step b)
    (_sigma_x b) (_sigma_z b) (Some v) (_mean_x b) (_mean_z b).
Definition set__mean_x (v : Qc) (b : Beam) : Beam :=
  mkBeam (input_beam_config b) (style b) (required_inputs b) (_charge b)
    (_init_energy b) (particle b) (_init_gamma b) (position b) (step b)
    (_sigma_x b) (_sigma_z b) (_slope b) (Some v) (_mean_z b).
Definition set__mean_z (v : Qc) (b : Beam) : Beam :=
  mkBeam (input_beam_config b) (style b) (required_inputs b) (_charge b)
    (_init_energy b) (particle b) (_init_gamma b) (position b) (step b)
    (_sigma_x b) (_sigma_z b) (_slope b) (_mean_x b) (Some v).

(** *** Properties that read the coordinates *)

Definition x (b : Beam) : list Qc := Particle.x (particle b).
Definition px (b : Beam) : list Qc := Particle.px (particle b).
Definition z (b : Beam) : list Qc := Particle.z (particle b).
Definition pz (b : Beam) : list Qc := Particle.pz (particle b).
Definition init_energy (b : Beam) : Qc := _init_energy b.
Definition init_gamma (b : Beam) : Qc := _init_gamma b.
Definition charge (b : Beam) : value := _charge b.

Definition mean_x (b : Beam) : Qc := Np.mean (Particle.x (particle b)).
Definition mean_y (b : Beam) : Qc := Np.mean (Particle.y (particle b)).
Definition mean_z (b : Beam) : Qc := Np.mean (Particle.z (particle b)).

(** [energy]: [(self.particle.pz + 1) * self.particle.p0c] *)
Definition energy (b : Beam) : list Qc :=
  map (fun v => (v + 1) * Particle.p0c (particle b)) (Particle.pz (particle b)).

Definition mean_energy (b : Beam) : Qc := Np.mean (energy b).

(** [slope]: [np.polyfit(self.z, self.x, deg=1)], the pair [(a, b)] of
    the line [a*z + b]. *)
Definition slope (b : Beam) : outcome (Qc * Qc) := Np.polyfit (z b) (x b).

(** The residuals [x - (a z + b)] of the line [(a, b)]. *)
Definition residuals (a b : Qc) (z x : list Qc) : list Qc :=
  Np.sub x (Np.polyval [a; b] z).

(** [x_transform]: [self.x - np.polyval(self.slope, self.z)] *)
Definition x_transform (b : Beam) : outcome (list Qc) :=
  (p <- slope b ;;
   Return (Np.sub (x b) (Np.polyval [fst p; snd p] (z b))))%py.

(** [check_inputs]: returns the list it stores in
    [self.required_inputs]. *)
Definition check_inputs (input_beam : gmap string value)
  : outcome (list string) :=
  (assert (bool_decide ("style" ∈ dom input_beam))
     "ERROR: input_beam must have keyword <style>" ;;;
   sty <- getitem input_beam "style" ;;
   required <-
     (if bool_decide (sty = VStr "from_file")
      then Return ["style"; "beamfile"; "charge"; "energy"]
      else if bool_decide (sty = VStr "distgen")
      then Return ["style"; "distgen_input_file"]
      else if bool_decide (sty = VStr "ParticleGroup")
      then Return ["style"; "particleGroup_h5"]
      else Raise (Exception "input beam parsing Error: invalid input style")) ;;
   let allowed_params := required ++ ["verbose"] in
   for_ (elements (dom input_beam)) (fun input_param =>
     assert (bool_decide (input_param ∈ allowed_params))
       "Incorrect param given to __init__(**kwargs)") ;;;
   for_ required (fun req =>
     assert (bool_decide (req ∈ dom input_beam))
       "Required input parameter to __init__(**kwargs) was not found.") ;;;
   Return required)%py.

Section Beam.

(** The collaborators of [beams.py] that are not in the file: the
    constant [MC2] of [physical_constants], [np.std] (a square root),
    the file system behind [np.loadtxt], distgen's generator, the
    particle-group reader with the fields the constructor reads, the
    converter of [interfaces] and bmadx's [track_element]. *)
Variable MC2 : Qc.
Variable np_std : list Qc -> Qc.
Variable np_loadtxt : value -> outcome ndarray.
Variable PG : Type.
Variable pg_charge : PG -> Qc.
Variable pg_energy : PG -> list Qc.
Variable Generator_run : value -> outcome PG.
Variable ParticleGroup : value -> outcome PG.
Variable openpmd_to_bmadx_particles :
  PG -> Qc -> Qc -> Qc -> outcome Particle.t.
Variable Element : Type.
Variable track_element : Particle.t -> Element -> outcome Particle.t.

(** Two more collaborators, of the last two properties of the class:
    the Twiss computation of [twiss] and the converter back to a
    particle group of [interfaces]. *)
Variable Twiss : Type.
Variable twiss_from_bmadx_particles : Particle.t -> outcome Twiss.
Variable bmadx_particles_to_openpmd : Particle.t -> value -> outcome PG.

Definition sigma_x (b : Beam) : Qc := np_std (Particle.x (particle b)).
Definition sigma_z (b : Beam) : Qc := np_std (Particle.z (particle b)).
Definition sigma_energy (b : Beam) : Qc := np_std (energy b).

(** [gamma]: [self.energy / MC2] *)
Definition gamma (b : Beam) : list Qc := map (fun e => e / MC2) (energy b).

Definition sigma_x_transform (b : Beam) : outcome Qc :=
  (xt <- x_transform b ;; Return (np_std xt))%py.

(** The cached statistics agree with the current coordinates. *)
Definition status_consistent (b : Beam) : Prop :=
  _sigma_x b = Some (sigma_x b)
  ∧ _sigma_z b = Some (sigma_z b)
  ∧ (exists p, slope b = Return p ∧ _slope b = Some p)
  ∧ _mean_x b = Some (mean_x b)
  ∧ _mean_z b = Some (mean_z b).

Definition update_status : M unit :=
  (v <- read sigma_x ;; modify (set__sigma_x v) ;;;
   v <- read sigma_z ;; modify (set__sigma_z v) ;;;
   v <- lift slope ;; modify (set__slope v) ;;;
   v <- read mean_x ;; modify (set__mean_x v) ;;;
   v <- read mean_z ;; modify (set__mean_z v))%beam.

Definition track (element : Element) (step_size : Qc) (update_step : bool)
  : M unit :=
  (p <- lift (fun b => track_element (particle b) element) ;;
   modify (set_particle p) ;;;
   modify (fun b => set_position (position b + step_size) b) ;;;
   (if update_step
    then modify (fun b => set_step (step b + 1) b)
    else ret tt) ;;;
   update_status)%beam.

(** The field of a wake, converted to a relative kick over the step:
    [step_size * field * 1e6 / self.init_energy], cell by cell. *)
Definition kick_field (step_size E : Qc) (field : list (list Qc))
  : list (list Qc) :=
  map (map (fun v => step_size * v * e6 / E)) field.

Definition apply_wakes (dE_dct x_kick : list (list Qc))
    (xrange zrange : list Qc) (step_size : Qc) (transverse_on : bool)
  : M unit :=
  (E <- read init_energy ;;
   let dE_E1 := kick_field step_size E dE_dct in
   interp <- lift (fun _ =>
     Scipy.RegularGridInterpolator (xrange, zrange) dE_E1 0) ;;
   xt <- lift x_transform ;;
   zs <- read z ;;
   let dE_Es := Scipy.call interp (zip xt zs) in
   pz0 <- read pz ;;
   let pz_new := Np.add pz0 dE_Es in
   px_new <-
     (if transverse_on then
        E <- read init_energy ;;
        let dxp := kick_field step_size E x_kick in
        interp <- lift (fun _ =>
          Scipy.RegularGridInterpolator (xrange, zrange) dxp 0) ;;
        xt <- lift x_transform ;;
        zs <- read z ;;
        let dxps := Scipy.call interp (zip xt zs) in
        px0 <- read px ;;
        ret (Np.add px0 dxps)
      else read px) ;;
   modify (fun b =>
     set_particle
       (Particle.Particle
          (Particle.x (particle b)) px_new
          (Particle.y (particle b)) (Particle.py (particle b))
          (Particle.z (particle b)) pz_new
          (Particle.s (particle b)) (Particle.p0c (particle b))
          (Particle.mc2 (particle b))) b) ;;;
   update_status)%beam.

(** [Beam(input_beam)].  The three styles yield the charge, the
    initial energy and the particle object. *)
Definition load (input_beam : gmap string value) (sty : value)
  : outcome (value * Qc * Particle.t) :=
  (if bool_decide (sty = VStr "from_file") then
     filename <- getitem input_beam "beamfile" ;;
     coords <- np_loadtxt filename ;;
     ncol <- shape_1 coords ;;
     assert (ncol =? 6)%nat "Error: input beam must have 6 dimension" ;;;
     chg <- getitem input_beam "charge" ;;
     en <- getitem input_beam "energy" ;;
     en <- as_float en ;;
     Return (chg, en,
             Particle.Particle (column coords 0) (column coords 1)
               (column coords 2) (column coords 3)
               (column coords 4) (column coords 5) 0 en MC2)
   else if bool_decide (sty = VStr "distgen") then
     filename <- getitem input_beam "distgen_input_file" ;;
     pg <- Generator_run filename ;;
     let en := Np.mean (pg_energy pg) in
     p <- openpmd_to_bmadx_particles pg en 0 MC2 ;;
     Return (VFloat (pg_charge pg), en, p)
   else
     ParticleGroup_h5 <- getitem input_beam "ParticleGroup_h5" ;;
     pg <- ParticleGroup ParticleGroup_h5 ;;
     let en := Np.mean (pg_energy pg) in
     p <- openpmd_to_bmadx_particles pg en 0 MC2 ;;
     Return (VFloat (pg_charge pg), en, p))%py.

Definition __init__ (input_beam : gmap string value) : outcome Beam :=
  (required <- check_inputs input_beam ;;
   sty <- getitem input_beam "style" ;;
   loaded <- load input_beam sty ;;
   let '(chg, en, p) := loaded in
   let self :=
     mkBeam input_beam sty required chg en p (en / MC2) 0 0
       None None None None None in
   match update_status self with
   | (Return _, self') => Return self'
   | (Raise e, _) => Raise e
   end)%py.

(** [frog_leap]: [pass] *)
Definition frog_leap : M unit := ret tt.

(** [twiss]: [twiss_from_bmadx_particles(self.particle)] *)
Definition twiss (b : Beam) : outcome Twiss :=
  twiss_from_bmadx_particles (particle b).

(** [particle_group]: [bmadx_particles_to_openpmd(self.particle,
    self.charge)] *)
Definition particle_group (b : Beam) : outcome PG :=
  bmadx_particles_to_openpmd (particle b) (charge b).

(** The object after [update_status] has run to its end on coordinates
    whose fitted line is [p]: the five cached statistics rewritten. *)
Definition refreshed (p : Qc * Qc) (b : Beam) : Beam :=
  set__mean_z (mean_z b)
    (set__mean_x (mean_x b)
       (set__slope p
          (set__sigma_z (sigma_z b) (set__sigma_x (sigma_x b) b)))).

(** The object [track] hands to [update_status]: the tracked particles,
    the position advanced and, for a full step, the step counted. *)
Definition advanced (p' : Particle.t) (step_size : Qc) (update_step : bool)
    (b : Beam) : Beam :=
  let b1 := set_position (position b + step_size) (set_particle p' b) in
  if update_step then set_step (step b1 + 1) b1 else b1.

End Beam.

(** ** Vocabulary of the statements *)

(** A wake field on its axes, as the solver hands it over: both axes
    strictly increasing and one sample per pair of axis points. *)
Definition wake_grid (xrange zrange : list Qc) (field : list (list Qc))
  : Prop :=
  Scipy.strictly_ascending xrange = true
  ∧ Scipy.strictly_ascending zrange = true
  ∧ Scipy.shape field = (length xrange, length zrange).

(** A point outside the rectangle spanned by the axes. *)
Definition outside_hull (xrange zrange : list Qc) (pt : Qc * Qc) : Prop :=
  fst pt < nth 0 xrange 0 ∨ List.last xrange 0 < fst pt
  ∨ snd pt < nth 0 zrange 0 ∨ List.last zrange 0 < snd pt.

(** The number of particles. *)
Definition n_particle (b : Beam) : nat := length (Particle.x (particle b)).

(** The six coordinate arrays have one length. *)
Definition well_formed (p : Particle.t) : Prop :=
  length (Particle.px p) = length (Particle.x p)
  ∧ length (Particle.y p) = length (Particle.x p)
  ∧ length (Particle.py p) = length (Particle.x p)
  ∧ length (Particle.z p) = length (Particle.x p)
  ∧ length (Particle.pz p) = length (Particle.x p).

(** What no method but the constructor writes. *)
Definition same_settings (b b' : Beam) : Prop :=
  input_beam_config b' = input_beam_config b
  ∧ style b' = style b
  ∧ required_inputs b' = required_inputs b
  ∧ _charge b' = _charge b
  ∧ _init_energy b' = _init_energy b
  ∧ _init_gamma b' = _init_gamma b.

(** The kicked particle object built at the end of [apply_wakes]. *)
Definition kicked (p : Particle.t) (px_new pz_new : list Qc) : Particle.t :=
  Particle.Particle (Particle.x p) px_new (Particle.y p) (Particle.py p)
    (Particle.z p) pz_new (Particle.s p) (Particle.p0c p) (Particle.mc2 p).

(** The kick a wake field gives at a point: the interpolator of the
    converted field, as [apply_wakes] builds it, called at the point. *)
Definition wake_kick (xrange zrange : list Qc) (step_size E : Qc)
    (field : list (list Qc)) (pt : Qc * Qc) : Qc :=
  Scipy.call1
    (Scipy.Interpolator (xrange, zrange) (kick_field step_size E field) 0) pt.

(** The fields a style of input requires, if the style is one of the
    three. *)
Definition required_for (sty : value) : option (list string) :=
  if bool_decide (sty = VStr "from_file")
  then Some ["style"; "beamfile"; "charge"; "energy"]
  else if bool_decide (sty = VStr "distgen")
  then Some ["style"; "distgen_input_file"]
  else if bool_decide (sty = VStr "ParticleGroup")
  then Some ["style"; "particleGroup_h5"]
  else None.

(** The blend of the four corner values of cell [(i, j)] at a point,
    each weighted by the point's relative distance to the opposite edges. *)
Definition bilinear (xrange zrange : list Qc) (field : nat -> nat -> Qc)
    (i j : nat) (pt : Qc * Qc) : Qc :=
  let tx := (fst pt - nth i xrange 0) / (nth (S i) xrange 0 - nth i xrange 0) in
  let tz := (snd pt - nth j zrange 0) / (nth (S j) zrange 0 - nth j zrange 0) in
  (1 - tx) * (1 - tz) * field i j
  + (1 - tx) * tz * field i (S j)
  + tx * (1 - tz) * field (S i) j
  + tx * tz * field (S i) (S j).

(** [I] is the piecewise-linear interpolant of the samples [field] on
    the axes, with 0 outside of them: a point inside lies in a cell of
    the mesh on which [I] is the bilinear blend of the cell's corners. *)
Definition piecewise_linear (xrange zrange : list Qc)
    (field : nat -> nat -> Qc) (I : Qc * Qc -> Qc) : Prop :=
  (forall pt, outside_hull xrange zrange pt -> I pt = 0)
  ∧ (forall pt, ~ outside_hull xrange zrange pt ->
       exists i j,
         (S i < length xrange)%nat ∧ (S j < length zrange)%nat
         ∧ nth i xrange 0 ≤ fst pt ≤ nth (S i) xrange 0
         ∧ nth j zrange 0 ≤ snd pt ≤ nth (S j) zrange 0
         ∧ nth i xrange 0 < nth (S i) xrange 0
         ∧ nth j zrange 0 < nth (S j) zrange 0
         ∧ I pt = bilinear xrange zrange field i j pt).

(** The sum of the squared residuals of the line [(a, b)]. *)
Definition squared_error (a b : Qc) (z x : list Qc) : Qc :=
  Np.sum (Np.mul (residuals a b z x) (residuals a b z x)).

(** Coordinates on which the statistics refresh completes: [x] and [z]
    have one length and some [z] is not 0 (see [Np.polyfit]).  The
    constructor and every method that changes the coordinates end with
    that refresh, so these are the ensembles that exist. *)
Definition fit_defined (b : Beam) : Prop :=
  length (z b) = length (x b) ∧ Exists (fun v => v <> 0) (z b).

(** ** Sample data *)

Module Samples.

(** Stand-ins for the collaborators. *)
Definition MC2 : Qc := Qc_of_Z 510999.
Definition np_std (a : list Qc) : Qc := 0.
Definition drift (p : Particle.t) (_ : unit) : outcome Particle.t :=
  Return p.
Definition no_pg (_ : value) : outcome unit :=
  Raise (OtherError "no such file").
Definition convert (_ : unit) (_ _ _ : Qc) : outcome Particle.t :=
  Raise (OtherError "no particles").

Definition beam_of (x z pz : list Qc) : Beam :=
  mkBeam ∅ (VStr "from_file") ["style"; "beamfile"; "charge"; "energy"]
    (VFloat 1) e6
    (Particle.Particle x (map (fun _ => 0) x) (map (fun _ => 0) x)
       (map (fun _ => 0) x) z pz 0 e6 MC2)
    (e6 / MC2) 0 0 None None None None None.

(** Three particles on the line [x = z]. *)
Definition three_particles : Beam :=
  beam_of [- 1; 0; 1] [- 1; 0; 1] [0; 0; 0].

(** One particle at [x = 2], [z = 1]. *)
Definition one_particle : Beam := beam_of [2] [1] [0].

(** Two particles, the second one behind the mesh below. *)
Definition two_particles : Beam := beam_of [0; 0] [0; 1 + 2] [0; 0].

(** A mesh over [-2, 2] x [-2, 2] with a field of 1.0. *)
Definition axis : list Qc := [- 2; 2].
Definition ones : list (list Qc) := [[1; 1]; [1; 1]].

(** A table of two rows of five columns, and the file system that
    holds it under every name. *)
Definition five_columns : ndarray :=
  Array2 [[0; 0; 0; 0; 0]; [1; 1; 1; 1; 1]].
Definition loadtxt5 (_ : value) : outcome ndarray := Return five_columns.

Definition from_file_input : gmap string value :=
  <["style" := VStr "from_file"]>
    (<["beamfile" := VStr "beam.dat"]>
       (<["charge" := VFloat 1]> (<["energy" := VFloat e6]> ∅))).

Definition extra_key_input : gmap string value :=
  <["colour" := VStr "red"]> from_file_input.

Definition ParticleGroup_input : gmap string value :=
  <["style" := VStr "ParticleGroup"]>
    (<["particleGroup_h5" := VStr "beam.h5"]> ∅).

(** A table of two rows of six columns ([x = z = (0, 1)]), the file
    system that holds it under every name, and one that yields a single
    row as a 1-D array. *)
Definition six_columns : list (list Qc) :=
  [[0; 0; 0; 0; 0; 0]; [1; 0; 0; 0; 1; 0]].
Definition loadtxt6 (_ : value) : outcome ndarray :=
  Return (Array2 six_columns).
Definition loadtxt1 (_ : value) : outcome ndarray :=
  Return (Array1 [0; 0; 0; 0; 1; 0]).

(** A generator and a converter that return. *)
Definition gen_ok (_ : value) : outcome unit := Return tt.
Definition convert_ok (_ : unit) (_ _ _ : Qc) : outcome Particle.t :=
  Return (particle three_particles).

Definition distgen_input : gmap string value :=
  <["style" := VStr "distgen"]>
    (<["distgen_input_file" := VStr "gen.yaml"]> ∅).

Definition no_style_input : gmap string value :=
  <["beamfile" := VStr "beam.dat"]> ∅.

Definition bad_style_input : gmap string value :=
  <["style" := VStr "gaussian"]> ∅.

(** An ensemble without particles; the two-particle ensemble with the
    chirp [z + 2] added to its [x]; a mesh with a point at [x = 0] and its
    field; a field of zeros. *)
Definition no_particles : Beam := beam_of [] [] [].
Definition chirped : Beam := beam_of [2; 1 + 2 + 2] [0; 1 + 2] [0; 0].

(** An element that puts every particle at [z = 0]. *)
Definition collapse (p : Particle.t) (_ : unit) : outcome Particle.t :=
  Return (Particle.Particle (Particle.x p) (Particle.px p) (Particle.y p)
            (Particle.py p) (map (fun _ => 0) (Particle.z p))
            (Particle.pz p) (Particle.s p) (Particle.p0c p)
            (Particle.mc2 p)).

End Samples.

(** Closed goals over [Qc]: two canonical fractions are compared through
    their decision procedure, not by conversion. *)
Ltac by_compute := apply (bool_decide_eq_true_1 _); vm_compute; reflexivity.
Ltac by_decide := apply (bool_decide_unpack _); vm_compute; exact I.

(** * Facts *)

(** ** Sums *)

Section Sums.

Lemma of_nat_0 : Np.of_nat 0 = 0.
Proof. apply Qc_is_canon. reflexivity. Qed.

Lemma of_nat_S (n : nat) : Np.of_nat (S n) = 1 + Np.of_nat n.
Proof.
  unfold Np.of_nat. rewrite Nat2Z.inj_succ, <- Z.add_1_l, Z2Qc_inj_add.
  now rewrite Z2Qc_inj_1.
Qed.

Lemma of_nat_pos (n : nat) : (0 < n)%nat -> 0 < Np.of_nat n.
Proof.
  intros H. unfold Np.of_nat. rewrite <- Z2Qc_inj_0.
  apply (proj1 (Z2Qc_inj_lt 0 (Z.of_nat n))). lia.
Qed.

Lemma of_nat_neq_0 (n : nat) : (0 < n)%nat -> Np.of_nat n <> 0.
Proof.
  intros H E. pose proof (of_nat_pos n H) as P. rewrite E in P.
  now apply Qclt_not_eq in P.
Qed.

Lemma sq_nonneg (a : Qc) : 0 ≤ a * a.
Proof.
  destruct (Qclt_le_dec a 0) as [N | P].
  - replace (a * a) with ((- a) * (- a)) by ring.
    assert (0 ≤ - a).
    { apply Qclt_le_weak in N. apply Qcopp_le_compat in N.
      now replace (- 0) with 0 in N by ring. }
    now apply Qcmult_nonneg_nonneg.
  - now apply Qcmult_nonneg_nonneg.
Qed.

Lemma sq_zero (a : Qc) : a * a = 0 -> a = 0.
Proof.
  intros H. destruct (decide (a = 0)) as [|N]; [done|].
  exfalso. apply N.
  replace a with (a * a * / a) by (field; done).
  rewrite H. ring.
Qed.

Lemma mult_cancel_l (k a b : Qc) : k <> 0 -> k * a = k * b -> a = b.
Proof.
  intros Hk E. replace a with (k * a / k) by (field; done).
  rewrite E. field. done.
Qed.

Lemma nonneg_sum_zero (a b : Qc) : 0 ≤ a -> 0 ≤ b -> a + b = 0 -> a = 0 ∧ b = 0.
Proof.
  intros Ha Hb E.
  assert (a ≤ 0).
  { replace a with (a + b - b) by ring. rewrite E.
    replace (0 - b) with (- b) by ring.
    apply Qcopp_le_compat in Hb. now replace (- 0) with 0 in Hb by ring. }
  assert (a = 0) by now apply Qcle_antisym.
  split; [done|]. subst a. now rewrite Qcplus_0_l in E.
Qed.

Lemma sum_sq_nonneg (f : Qc -> Qc) (l : list Qc) :
  0 ≤ Np.sum (map (fun v => f v * f v) l).
Proof.
  induction l as [|v l IH]; simpl.
  - apply Qcle_refl.
  - apply Qcplus_nonneg_nonneg; [apply sq_nonneg | exact IH].
Qed.

Lemma sum_sq_zero (f : Qc -> Qc) (l : list Qc) :
  Np.sum (map (fun v => f v * f v) l) = 0 -> Forall (fun v => f v = 0) l.
Proof.
  induction l as [|v l IH]; simpl; intros E; constructor.
  - apply nonneg_sum_zero in E as [E _];
      [now apply sq_zero | apply sq_nonneg | apply sum_sq_nonneg].
  - apply IH. apply nonneg_sum_zero in E as [_ E];
      [done | apply sq_nonneg | apply sum_sq_nonneg].
Qed.

(** [sum (z - m)^2 = sum z^2 - 2 m sum z + n m^2] *)
Lemma sum_deviation (m : Qc) (z : list Qc) :
  Np.sum (map (fun v => (v - m) * (v - m)) z)
  = Np.sum (Np.mul z z) - 2 * m * Np.sum z + Np.of_nat (length z) * m * m.
Proof.
  induction z as [|v z IH].
  - change (length []) with O. rewrite of_nat_0. cbn. ring.
  - change (length (v :: z)) with (S (length z)). rewrite of_nat_S.
    cbn [map Np.sum foldr Np.mul zip_with].
    fold (Np.sum (map (fun v => (v - m) * (v - m)) z)).
    fold (Np.mul z z). fold (Np.sum (Np.mul z z)). fold (Np.sum z).
    rewrite IH. ring.
Qed.

Lemma sum_nil : Np.sum [] = 0.
Proof. reflexivity. Qed.
Lemma sum_cons (v : Qc) (l : list Qc) : Np.sum (v :: l) = v + Np.sum l.
Proof. reflexivity. Qed.
Lemma mul_nil (k : list Qc) : Np.mul [] k = [].
Proof. reflexivity. Qed.
Lemma mul_cons (a b : Qc) (l k : list Qc) :
  Np.mul (a :: l) (b :: k) = a * b :: Np.mul l k.
Proof. reflexivity. Qed.
Lemma sub_cons (a b : Qc) (l k : list Qc) :
  Np.sub (a :: l) (b :: k) = a - b :: Np.sub l k.
Proof. reflexivity. Qed.
Lemma polyval_cons (p : list Qc) (v : Qc) (l : list Qc) :
  Np.polyval p (v :: l) = Np.polyval1 p v :: Np.polyval p l.
Proof. reflexivity. Qed.
Lemma polyval1_line (a b v : Qc) : Np.polyval1 [a; b] v = a * v + b.
Proof. unfold Np.polyval1. simpl. ring. Qed.
Lemma length_cons_S {A} (v : A) (l : list A) : length (v :: l) = S (length l).
Proof. reflexivity. Qed.

Lemma mul_diag (z : list Qc) : Np.mul z z = map (fun v => v * v) z.
Proof. induction z as [|v z IH]; [done|]. rewrite mul_cons, IH. done. Qed.

Lemma length_resid (a b : Qc) (z x : list Qc) :
  length z = length x ->
  length (Np.sub x (Np.polyval [a; b] z)) = length z.
Proof.
  intros E. unfold Np.sub, Np.polyval.
  rewrite length_zip_with, length_map. lia.
Qed.

Lemma list_ind2 (P : list Qc -> list Qc -> Prop) :
  P [] [] ->
  (forall a b l k, length l = length k -> P l k -> P (a :: l) (b :: k)) ->
  forall l k, length l = length k -> P l k.
Proof.
  intros H0 HS l. induction l as [|a l IH]; intros [|b k] E;
    try discriminate; [exact H0|].
  apply HS; [|apply IH]; now injection E.
Qed.

End Sums.

Create Rewrite HintDb np.
#[local] Hint Rewrite sum_nil sum_cons mul_nil mul_cons sub_cons polyval_cons
  polyval1_line @length_cons_S of_nat_S of_nat_0 map_cons : np.

Ltac np_step := cbn [length]; autorewrite with np.

(** ** The straight-line fit *)

Section Fit.

Abbreviation resid := residuals.

Lemma sum_resid (a b : Qc) (z x : list Qc) :
  length z = length x ->
  Np.sum (resid a b z x)
  = Np.sum x - a * Np.sum z - Np.of_nat (length z) * b.
Proof.
  unfold residuals. revert z x. apply list_ind2.
  - np_step. cbn. ring.
  - intros u v z x _ IH. np_step. rewrite IH. ring.
Qed.

Lemma sum_resid_z (a b : Qc) (z x : list Qc) :
  length z = length x ->
  Np.sum (Np.mul (resid a b z x) z)
  = Np.sum (Np.mul x z) - a * Np.sum (Np.mul z z) - b * Np.sum z.
Proof.
  unfold residuals. revert z x. apply list_ind2.
  - cbn. ring.
  - intros u v z x _ IH. np_step. rewrite IH. ring.
Qed.

(** Squared error of another line [(a', b')], expanded around [(a, b)]. *)
Lemma sum_resid_sq (a b a' b' : Qc) (z x : list Qc) :
  length z = length x ->
  Np.sum (Np.mul (resid a' b' z x) (resid a' b' z x))
  = Np.sum (Np.mul (resid a b z x) (resid a b z x))
    + 2 * ((a - a') * Np.sum (Np.mul (resid a b z x) z)
           + (b - b') * Np.sum (resid a b z x))
    + Np.sum (map (fun v => ((a - a') * v + (b - b'))
                            * ((a - a') * v + (b - b'))) z).
Proof.
  unfold residuals. revert z x. apply list_ind2.
  - cbn. ring.
  - intros u v z x _ IH. np_step. rewrite IH. ring.
Qed.

Lemma all_eq_sum (c : Qc) (z : list Qc) :
  Forall (fun v => v = c) z -> Np.sum z = Np.of_nat (length z) * c.
Proof.
  induction 1 as [|v z -> _ IH]; np_step; [ring|]. rewrite IH. ring.
Qed.

Lemma all_eq_sum_sq (c : Qc) (z : list Qc) :
  Forall (fun v => v = c) z ->
  Np.sum (Np.mul z z) = Np.of_nat (length z) * c * c.
Proof.
  induction 1 as [|v z -> _ IH]; np_step; [cbn; ring|]. rewrite IH. ring.
Qed.

Lemma all_eq_sum_mul (c : Qc) (z x : list Qc) :
  length z = length x ->
  Forall (fun v => v = c) z -> Np.sum (Np.mul x z) = c * Np.sum x.
Proof.
  revert z x. apply (list_ind2 (fun z x => Forall _ z -> _ = _)).
  - intros _. cbn. ring.
  - intros u v z x _ IH H. inversion H; subst. np_step.
    rewrite IH by done. ring.
Qed.

(** Equality in the Cauchy-Schwarz inequality: the determinant of the
    normal equations vanishes only when all [z] are their mean. *)
Lemma det_zero_all_eq (z : list Qc) :
  (0 < length z)%nat ->
  Np.of_nat (length z) * Np.sum (Np.mul z z) - Np.sum z * Np.sum z = 0 ->
  Forall (fun v => v = Np.sum z / Np.of_nat (length z)) z.
Proof.
  intros Hn Hdet. pose proof (of_nat_neq_0 _ Hn) as Hn0.
  set (m := Np.sum z / Np.of_nat (length z)).
  assert (Np.sum (map (fun v => (v - m) * (v - m)) z) = 0) as Hs.
  { rewrite sum_deviation.
    apply (mult_cancel_l (Np.of_nat (length z))); [done|].
    rewrite Qcmult_0_r, <- Hdet. unfold m. field. done. }
  apply (sum_sq_zero (fun v => v - m)) in Hs.
  revert Hs. apply List.Forall_impl. intros v Hv.
  replace v with (v - m + m) by ring. rewrite Hv. ring.
Qed.

Lemma sum_sq_zero_all_zero (z : list Qc) :
  Np.sum (Np.mul z z) = 0 <-> Forall (fun v => v = 0) z.
Proof.
  split.
  - rewrite mul_diag. apply (sum_sq_zero (fun v => v)).
  - intros H. rewrite (all_eq_sum_sq 0) by done. ring.
Qed.

Lemma polyfit_unfold (z x : list Qc) :
  (0 < length z)%nat -> length z = length x ->
  Np.polyfit z x
  = let n := Np.of_nat (length z) in
    let det := n * Np.sum (Np.mul z z) - Np.sum z * Np.sum z in
    if bool_decide (det = 0) then
      if bool_decide (Np.sum (Np.mul z z) = 0)
      then Raise (LinAlgError "SVD did not converge in Linear Least Squares")
      else Return (Np.mean x / (2 * default 0 (head z)), Np.mean x / 2)
    else
      Return ((n * Np.sum (Np.mul x z) - Np.sum z * Np.sum x) / det,
              (Np.sum x
               - (n * Np.sum (Np.mul x z) - Np.sum z * Np.sum x) / det
                 * Np.sum z) / n).
Proof.
  intros Hn El. destruct z as [|c z']; [simpl in Hn; lia|].
  unfold Np.polyfit. rewrite El, Nat.eqb_refl. reflexivity.
Qed.

Lemma polyfit_length (z x : list Qc) (p : Qc * Qc) :
  Np.polyfit z x = Return p -> (0 < length z)%nat ∧ length z = length x.
Proof.
  unfold Np.polyfit. destruct z as [|c z']; [discriminate|].
  destruct (length (c :: z') =? length x)%nat eqn:El; [|discriminate].
  intros _. apply Nat.eqb_eq in El. split; [simpl; lia | done].
Qed.

(** The two ways [polyfit] returns. *)
Lemma polyfit_cases (z x : list Qc) (p : Qc * Qc) :
  Np.polyfit z x = Return p ->
  (0 < length z)%nat ∧ length z = length x ∧
  let n := Np.of_nat (length z) in
  let det := n * Np.sum (Np.mul z z) - Np.sum z * Np.sum z in
  (det <> 0 ∧
   p = ((n * Np.sum (Np.mul x z) - Np.sum z * Np.sum x) / det,
        (Np.sum x
         - (n * Np.sum (Np.mul x z) - Np.sum z * Np.sum x) / det * Np.sum z)
        / n))
  ∨ (det = 0 ∧ Np.sum (Np.mul z z) <> 0 ∧
     exists c, Forall (fun v => v = c) z ∧ c <> 0 ∧
               p = (Np.mean x / (2 * c), Np.mean x / 2)).
Proof.
  intros Hp. destruct (polyfit_length _ _ _ Hp) as [Hn El].
  rewrite polyfit_unfold in Hp by done. cbv zeta in Hp.
  split; [done|]. split; [done|]. cbv zeta.
  case_bool_decide as Hd; [case_bool_decide as Hzz; [discriminate|] |];
    injection Hp as <-.
  - right. split; [done|]. split; [done|].
    pose proof (det_zero_all_eq z Hn Hd) as Hm.
    set (c := default 0 (head z)).
    assert (c = Np.sum z / Np.of_nat (length z)) as Hc.
    { unfold c. destruct z; [simpl in Hn; lia|]. now inversion Hm. }
    exists c. rewrite <- Hc in Hm. split; [done|]. split; [|done].
    intros E. rewrite E in Hm. now apply Hzz, sum_sq_zero_all_zero.
  - left. done.
Qed.

(** [polyfit] returns exactly when the two arrays have one length and
    some [z] is not 0. *)
Lemma polyfit_returns_iff (z x : list Qc) :
  (exists p, Np.polyfit z x = Return p)
  <-> length z = length x ∧ Exists (fun v => v <> 0) z.
Proof.
  split.
  - intros [p Hp]. apply polyfit_cases in Hp as (Hn & El & Hp).
    split; [done|]. cbv zeta in Hp.
    apply not_Forall_Exists; [intros v; apply _|].
    intros Hall.
    assert (Forall (fun v => v = 0) z) as H0.
    { revert Hall. apply List.Forall_impl. intros v Hv.
      destruct (decide (v = 0)); [done | now destruct Hv]. }
    pose proof (proj2 (sum_sq_zero_all_zero z) H0) as Hzz.
    pose proof (all_eq_sum 0 z H0) as Hz.
    destruct Hp as [[Hd _] | (_ & Hd & _)]; [|done].
    apply Hd. rewrite Hzz, Hz. ring.
  - intros [El Hex].
    assert (0 < length z)%nat as Hn
      by (destruct z; [inversion Hex | simpl; lia]).
    rewrite polyfit_unfold by done. cbv zeta.
    case_bool_decide as Hd; [case_bool_decide as Hzz|]; eauto.
    exfalso. apply Exists_exists in Hex as (v & Hv & Hv0).
    apply sum_sq_zero_all_zero in Hzz. rewrite Forall_forall in Hzz.
    apply Hv0, Hzz, Hv.
Qed.

(** The residuals of the fitted line are orthogonal to [1] and to [z]. *)
Lemma polyfit_orthogonal (z x : list Qc) (a b : Qc) :
  Np.polyfit z x = Return (a, b) ->
  Np.sum (resid a b z x) = 0 ∧ Np.sum (Np.mul (resid a b z x) z) = 0.
Proof.
  intros Hp. apply polyfit_cases in Hp as (Hn & El & Hp). cbv zeta in Hp.
  pose proof (of_nat_neq_0 _ Hn) as Hn0.
  rewrite sum_resid, sum_resid_z by done.
  destruct Hp as [[Hd [= -> ->]] | (Hd & Hzz & c & Hall & Hc & [= -> ->])].
  - split; field; done.
  - rewrite (all_eq_sum_mul c z x El Hall), (all_eq_sum_sq c z Hall),
      (all_eq_sum c z Hall). unfold Np.mean. rewrite <- El.
    split; field; done.
Qed.


(** No line has a smaller sum of squared residuals. *)
Lemma polyfit_least_squares (z x : list Qc) (a b : Qc) :
  Np.polyfit z x = Return (a, b) ->
  forall a' b',
    Np.sum (Np.mul (resid a b z x) (resid a b z x))
    ≤ Np.sum (Np.mul (resid a' b' z x) (resid a' b' z x)).
Proof.
  intros Hp a' b'. pose proof (polyfit_orthogonal _ _ _ _ Hp) as [H1 Hz].
  apply polyfit_cases in Hp as (_ & El & _).
  rewrite (sum_resid_sq a b a' b') by done. rewrite H1, Hz.
  set (S0 := Np.sum (Np.mul (resid a b z x) (resid a b z x))).
  replace (2 * ((a - a') * 0 + (b - b') * 0)) with 0 by ring.
  rewrite Qcplus_0_r.
  rewrite <- (Qcplus_0_r S0) at 1.
  apply Qcplus_le_mono_l.
  apply (sum_sq_nonneg (fun v => (a - a') * v + (b - b'))).
Qed.

End Fit.

(** ** The interpolator *)

Section Interpolator.

Lemma searchsorted_le (g : list Qc) (u : Qc) :
  (Scipy.searchsorted g u <= length g)%nat.
Proof.
  induction g as [|e g IH]; simpl; [lia|]. case_bool_decide; lia.
Qed.

Lemma searchsorted_below (g : list Qc) (u : Qc) (i : nat) :
  (i < Scipy.searchsorted g u)%nat -> nth i g 0 < u.
Proof.
  revert i. induction g as [|e g IH]; simpl; intros i Hi; [lia|].
  case_bool_decide; [|lia]. destruct i; [done|]. apply IH. lia.
Qed.

Lemma searchsorted_above (g : list Qc) (u : Qc) :
  (Scipy.searchsorted g u < length g)%nat ->
  u ≤ nth (Scipy.searchsorted g u) g 0.
Proof.
  induction g as [|e g IH]; simpl; intros Hi; [lia|].
  case_bool_decide as H; [apply IH; lia|]. now apply Qcnot_lt_le.
Qed.

Lemma ascending_step (g : list Qc) (i : nat) :
  Scipy.strictly_ascending g = true ->
  (S i < length g)%nat -> nth i g 0 < nth (S i) g 0.
Proof.
  revert i. induction g as [|a [|b g] IH]; simpl; intros i Hg Hi; try lia.
  apply andb_prop in Hg as [Hab Hg]. destruct i.
  - now apply bool_decide_eq_true in Hab.
  - apply (IH i Hg). simpl. lia.
Qed.

Lemma last_nth_pred (g : list Qc) :
  List.last g 0 = nth (length g - 1) g 0.
Proof.
  induction g as [|a [|b g] IH]; [done..|].
  change (List.last (a :: b :: g) 0) with (List.last (b :: g) 0).
  rewrite IH. simpl. now rewrite Nat.sub_0_r.
Qed.

Lemma out_of_bounds_false (g : list Qc) (u : Qc) :
  Scipy.out_of_bounds g u = false <-> nth 0 g 0 ≤ u ∧ u ≤ List.last g 0.
Proof.
  unfold Scipy.out_of_bounds. rewrite orb_false_iff.
  rewrite !bool_decide_eq_false. split; intros [H1 H2];
    (split; [apply Qcle_ngt || apply Qcle_ngt in H1 |
             apply Qcle_ngt || apply Qcle_ngt in H2]); done.
Qed.

(** For a point inside the axis, the cell found has the point between
    its two edges. *)
Lemma cell_bracket (g : list Qc) (u : Qc) :
  Scipy.strictly_ascending g = true ->
  (2 <= length g)%nat ->
  Scipy.out_of_bounds g u = false ->
  (S (Scipy.cell g u) < length g)%nat
  ∧ nth (Scipy.cell g u) g 0 ≤ u
  ∧ u ≤ nth (S (Scipy.cell g u)) g 0
  ∧ nth (Scipy.cell g u) g 0 < nth (S (Scipy.cell g u)) g 0.
Proof.
  intros Hg Hl Hb. apply out_of_bounds_false in Hb as [Hlo Hhi].
  unfold Scipy.cell. pose proof (searchsorted_le g u) as Hk.
  pose proof (searchsorted_below g u) as Hbelow.
  pose proof (searchsorted_above g u) as Hab.
  remember (Scipy.searchsorted g u) as k eqn:Ek. clear Ek.
  assert (k < length g)%nat as Hk'.
  { destruct (decide (k = length g)) as [E|]; [|lia]. exfalso.
    rewrite last_nth_pred in Hhi.
    assert (nth (length g - 1) g 0 < u) as C by (apply Hbelow; lia).
    now apply Qclt_not_le in C. }
  specialize (Hab Hk').
  destruct k as [|k]; simpl Nat.pred.
  - rewrite Nat.min_0_l.
    assert (nth 0 g 0 < nth 1 g 0) by (apply ascending_step; [done|lia]).
    repeat split; [lia|done| |done].
    apply Qcle_trans with (nth 0 g 0); [done | now apply Qclt_le_weak].
  - rewrite Nat.min_l by lia.
    assert (nth k g 0 < nth (S k) g 0) by (apply ascending_step; [done|lia]).
    repeat split; [lia| |done|done].
    apply Qclt_le_weak, Hbelow. lia.
Qed.

Lemma RegularGridInterpolator_ok (xr zr : list Qc) (v : list (list Qc))
    (fill : Qc) :
  wake_grid xr zr v ->
  Scipy.RegularGridInterpolator (xr, zr) v fill
  = Return (Scipy.Interpolator (xr, zr) v fill).
Proof.
  intros (Hx & Hz & Hs). unfold Scipy.RegularGridInterpolator, Scipy.check_axis.
  rewrite Hs. simpl. rewrite Hx, Hz, !Nat.eqb_refl. reflexivity.
Qed.

(** A field of another shape than the axes is refused, with a
    [ValueError]. *)
Lemma RegularGridInterpolator_shape (xr zr : list Qc) (v : list (list Qc))
    (fill : Qc) :
  Scipy.shape v <> (length xr, length zr) ->
  exists msg,
    Scipy.RegularGridInterpolator (xr, zr) v fill = Raise (ValueError msg).
Proof.
  intros Hs. unfold Scipy.RegularGridInterpolator, Scipy.check_axis.
  destruct (Scipy.shape v) as [n m]. simpl.
  destruct (Scipy.strictly_ascending xr); simpl; [|eauto].
  destruct (n =? length xr)%nat eqn:En; simpl; [|eauto].
  destruct (Scipy.strictly_ascending zr); simpl; [|eauto].
  destruct (m =? length zr)%nat eqn:Em; simpl; [|eauto].
  apply Nat.eqb_eq in En, Em. subst. done.
Qed.

Lemma call1_outside (f : Scipy.interpolator) (pt : Qc * Qc) :
  outside_hull (fst (Scipy.grid f)) (snd (Scipy.grid f)) pt ->
  Scipy.call1 f pt = Scipy.fill_value f.
Proof.
  intros H. unfold Scipy.call1, Scipy.out_of_bounds.
  destruct H as [H | [H | [H | H]]];
    rewrite (bool_decide_eq_true_2 _ H), ?orb_true_r; reflexivity.
Qed.

(** Inside the axes the value is the bilinear blend of the four corners
    of the cell that holds the point. *)
Lemma call1_inside (xr zr : list Qc) (v : list (list Qc)) (fill : Qc)
    (pt : Qc * Qc) :
  Scipy.out_of_bounds xr (fst pt) = false ->
  Scipy.out_of_bounds zr (snd pt) = false ->
  let i := Scipy.cell xr (fst pt) in
  let j := Scipy.cell zr (snd pt) in
  let tx := (fst pt - nth i xr 0) / (nth (S i) xr 0 - nth i xr 0) in
  let tz := (snd pt - nth j zr 0) / (nth (S j) zr 0 - nth j zr 0) in
  Scipy.call1 (Scipy.Interpolator (xr, zr) v fill) pt
  = (1 - tx) * (1 - tz) * Scipy.item v i j
    + (1 - tx) * tz * Scipy.item v i (S j)
    + tx * (1 - tz) * Scipy.item v (S i) j
    + tx * tz * Scipy.item v (S i) (S j).
Proof.
  intros Hx Hz. unfold Scipy.call1. cbn [Scipy.grid fst snd].
  rewrite Hx, Hz. cbn [orb]. unfold Scipy.evaluate_linear.
  cbn [Scipy.grid Scipy.values]. unfold Scipy.norm_distance. cbv zeta. ring.
Qed.

(** A field that has one value [c] at the four corners is [c] there. *)
Lemma call1_flat (xr zr : list Qc) (v : list (list Qc)) (fill c : Qc)
    (pt : Qc * Qc) :
  Scipy.out_of_bounds xr (fst pt) = false ->
  Scipy.out_of_bounds zr (snd pt) = false ->
  (forall i j, (i < length xr)%nat -> (j < length zr)%nat ->
               Scipy.item v i j = c) ->
  Scipy.strictly_ascending xr = true -> (2 <= length xr)%nat ->
  Scipy.strictly_ascending zr = true -> (2 <= length zr)%nat ->
  Scipy.call1 (Scipy.Interpolator (xr, zr) v fill) pt = c.
Proof.
  intros Hx Hz Hc Ax Lx Az Lz. rewrite call1_inside by done. cbv zeta.
  destruct (cell_bracket xr (fst pt) Ax Lx Hx) as (Hi & _).
  destruct (cell_bracket zr (snd pt) Az Lz Hz) as (Hj & _).
  rewrite !Hc by lia. ring.
Qed.

Lemma not_outside_hull (xr zr : list Qc) (pt : Qc * Qc) :
  ~ outside_hull xr zr pt <->
  Scipy.out_of_bounds xr (fst pt) = false
  ∧ Scipy.out_of_bounds zr (snd pt) = false.
Proof.
  rewrite !out_of_bounds_false. unfold outside_hull.
  rewrite !Qcle_ngt. tauto.
Qed.

Lemma interpolator_piecewise_linear (xr zr : list Qc) (v : list (list Qc)) :
  Scipy.strictly_ascending xr = true -> (2 <= length xr)%nat ->
  Scipy.strictly_ascending zr = true -> (2 <= length zr)%nat ->
  piecewise_linear xr zr (Scipy.item v)
    (Scipy.call1 (Scipy.Interpolator (xr, zr) v 0)).
Proof.
  intros Ax Lx Az Lz. split.
  - intros pt Hout. now rewrite call1_outside.
  - intros pt [Hx Hz]%not_outside_hull.
    destruct (cell_bracket xr (fst pt) Ax Lx Hx) as (Hi & Hi1 & Hi2 & Hi3).
    destruct (cell_bracket zr (snd pt) Az Lz Hz) as (Hj & Hj1 & Hj2 & Hj3).
    exists (Scipy.cell xr (fst pt)), (Scipy.cell zr (snd pt)).
    repeat split; try done. now apply call1_inside.
Qed.




Lemma shape_kick_field (st E : Qc) (v : list (list Qc)) :
  Scipy.shape (kick_field st E v) = Scipy.shape v.
Proof.
  unfold Scipy.shape, kick_field. rewrite length_map.
  destruct v as [|r v]; simpl; [done|]. now rewrite length_map.
Qed.

Lemma item_kick_field (st E : Qc) (v : list (list Qc)) (i j : nat) :
  Scipy.item (kick_field st E v) i j = st * Scipy.item v i j * e6 / E.
Proof.
  unfold Scipy.item, kick_field.
  destruct (decide (i < length v)%nat) as [Hi|Hi].
  - rewrite (nth_indep _ [] (map (fun v => st * v * e6 / E) []))
      by (rewrite length_map; lia).
    rewrite (map_nth (map (fun v => st * v * e6 / E))).
    destruct (decide (j < length (nth i v []))%nat) as [Hj|Hj].
    + rewrite (nth_indep _ 0 (st * 0 * e6 / E)) by (rewrite length_map; lia).
      now rewrite (map_nth (fun v => st * v * e6 / E)).
    + rewrite !(nth_overflow _ 0) by (rewrite ?length_map; lia).
      unfold Qcdiv. ring.
  - rewrite !(nth_overflow _ []) by (rewrite ?length_map; lia).
    destruct j; simpl; unfold Qcdiv; ring.
Qed.

End Interpolator.

(** ** The methods of [Beam] *)

Section BeamFacts.

Context (MC2 : Qc) (np_std : list Qc -> Qc).
Context (Element : Type)
        (track_element : Particle.t -> Element -> outcome Particle.t).

Lemma update_status_returns (b : Beam) (p : Qc * Qc) :
  slope b = Return p ->
  exists b',
    update_status np_std b = (Return tt, b')
    ∧ particle b' = particle b
    ∧ position b' = position b ∧ step b' = step b
    ∧ same_settings b b'
    ∧ status_consistent np_std b'.
Proof.
  intros Hs. unfold update_status, mbind_, read, lift, modify. cbn.
  change (slope _) with (slope b). rewrite Hs.
  eexists. split; [reflexivity|]. cbn.
  repeat split; try reflexivity.
  exists p. split; [exact Hs | reflexivity].
Qed.

Lemma update_status_raises (b : Beam) (e : exn) :
  slope b = Raise e ->
  exists b',
    update_status np_std b = (Raise e, b')
    ∧ particle b' = particle b
    ∧ position b' = position b ∧ step b' = step b
    ∧ same_settings b b'.
Proof.
  intros Hs. unfold update_status, mbind_, read, lift, modify. cbn.
  change (slope _) with (slope b). rewrite Hs.
  eexists. split; [reflexivity|]. cbn. repeat split; reflexivity.
Qed.

Lemma x_transform_slope (b : Beam) (xt : list Qc) :
  x_transform b = Return xt ->
  exists p, slope b = Return p
            ∧ xt = residuals (fst p) (snd p) (z b) (x b).
Proof.
  unfold x_transform. destruct (slope b) as [p|e]; simpl; [|discriminate].
  intros [= <-]. eauto.
Qed.

(** One run of [apply_wakes], by what its three fallible steps do: the
    interpolator of the energy kick, the de-chirped coordinate, and
    (when asked for) the interpolator of the transverse kick.  A failure
    of any of them leaves the object as it was. *)
Lemma apply_wakes_run (dE_dct x_kick : list (list Qc))
    (xrange zrange : list Qc) (step_size : Qc) (transverse_on : bool)
    (b : Beam) :
  let E := init_energy b in
  let run := apply_wakes np_std dE_dct x_kick xrange zrange step_size
               transverse_on b in
  match
    Scipy.RegularGridInterpolator (xrange, zrange)
      (kick_field step_size E dE_dct) 0,
    x_transform b,
    (if transverse_on
     then Scipy.RegularGridInterpolator (xrange, zrange)
            (kick_field step_size E x_kick) 0
     else Return (Scipy.Interpolator (xrange, zrange) [] 0))
  with
  | Raise e, _, _ => run = (Raise e, b)
  | Return _, Raise e, _ => run = (Raise e, b)
  | Return _, Return _, Raise e => run = (Raise e, b)
  | Return f, Return xt, Return g =>
      exists b',
        run = (Return tt, b')
        ∧ particle b'
          = kicked (particle b)
              (if transverse_on
               then Np.add (px b) (Scipy.call g (zip xt (z b)))
               else px b)
              (Np.add (pz b) (Scipy.call f (zip xt (z b))))
        ∧ position b' = position b ∧ step b' = step b
        ∧ same_settings b b'
        ∧ status_consistent np_std b'
  end.
Proof.
  cbv zeta. unfold apply_wakes, mbind_, read, lift. cbn beta iota.
  destruct (Scipy.RegularGridInterpolator _ (kick_field _ _ dE_dct) _)
    as [f|e]; [|reflexivity].
  destruct (x_transform b) as [xt|e] eqn:Hxt; [|reflexivity].
  destruct (x_transform_slope _ _ Hxt) as (p & Hp & _).
  destruct transverse_on.
  - destruct (Scipy.RegularGridInterpolator _ (kick_field _ _ x_kick) _)
      as [g|e]; [|reflexivity].
    rewrite Hxt. unfold ret, modify. cbn beta iota.
    destruct (update_status_returns
                (set_particle (kicked (particle b)
                   (Np.add (px b) (Scipy.call g (zip xt (z b))))
                   (Np.add (pz b) (Scipy.call f (zip xt (z b))))) b) p Hp)
      as (b' & Hrun & Hpart & Hpos & Hstep & Hset & Hst).
    exists b'. split; [exact Hrun|]. split; [exact Hpart|].
    split; [exact Hpos|]. split; [exact Hstep|]. split; [exact Hset|exact Hst].
  - unfold modify. cbn beta iota.
    destruct (update_status_returns
                (set_particle (kicked (particle b) (px b)
                   (Np.add (pz b) (Scipy.call f (zip xt (z b))))) b) p Hp)
      as (b' & Hrun & Hpart & Hpos & Hstep & Hset & Hst).
    exists b'. split; [exact Hrun|]. split; [exact Hpart|].
    split; [exact Hpos|]. split; [exact Hstep|]. split; [exact Hset|exact Hst].
Qed.

Lemma fit_defined_slope (b : Beam) :
  fit_defined b <-> exists p, slope b = Return p.
Proof. unfold fit_defined, slope. symmetry. apply polyfit_returns_iff. Qed.

Lemma fit_defined_x_transform (b : Beam) :
  fit_defined b ->
  exists p, slope b = Return p
            ∧ x_transform b = Return (residuals (fst p) (snd p) (z b) (x b)).
Proof.
  intros [p Hp]%fit_defined_slope. exists p. split; [done|].
  unfold x_transform. rewrite Hp. reflexivity.
Qed.

(** C2.  A wake whose energy field [dE_dct] has not the shape
    [(len(xrange), len(zrange))] makes [apply_wakes] raise the
    interpolator's [ValueError]; the object is left exactly as it was,
    coordinates and cached statistics included.  The same holds for
    [x_kick] when the transverse kick is on (the field is not looked at
    when it is off): the call raises, a [ValueError] if nothing before
    failed, and the object is as it was. *)
Theorem apply_wakes_shape_mismatch (dE_dct x_kick : list (list Qc))
    (xrange zrange : list Qc) (step_size : Qc) (transverse_on : bool)
    (b : Beam) :
  (Scipy.shape dE_dct <> (length xrange, length zrange) ->
   exists msg,
     apply_wakes np_std dE_dct x_kick xrange zrange step_size transverse_on b
     = (Raise (ValueError msg), b))
  ∧ (transverse_on = true ->
     Scipy.shape x_kick <> (length xrange, length zrange) ->
     exists e,
       apply_wakes np_std dE_dct x_kick xrange zrange step_size
         transverse_on b = (Raise e, b)
       ∧ (wake_grid xrange zrange dE_dct -> fit_defined b ->
          exists msg, e = ValueError msg)).
Proof.
  pose proof (apply_wakes_run dE_dct x_kick xrange zrange step_size
                transverse_on b) as Hrun. cbv zeta in Hrun.
  split.
  - intros Hs.
    destruct (RegularGridInterpolator_shape xrange zrange
                (kick_field step_size (init_energy b) dE_dct) 0) as [msg Hm].
    { now rewrite shape_kick_field. }
    rewrite Hm in Hrun. eauto.
  - intros -> Hs.
    destruct (RegularGridInterpolator_shape xrange zrange
                (kick_field step_size (init_energy b) x_kick) 0) as [msg Hm].
    { now rewrite shape_kick_field. }
    rewrite Hm in Hrun.
    destruct (Scipy.RegularGridInterpolator _ (kick_field _ _ dE_dct) _)
      as [f|e] eqn:Hf.
    + destruct (x_transform b) as [xt|e] eqn:Hxt.
      * exists (ValueError msg). split; [exact Hrun | eauto].
      * exists e. split; [exact Hrun|]. intros _ Hfit.
        destruct (fit_defined_x_transform b Hfit) as (p & _ & Hp).
        congruence.
    + exists e. split; [exact Hrun|]. intros Hg _.
      rewrite RegularGridInterpolator_ok in Hf; [discriminate|].
      destruct Hg as (? & ? & ?). repeat split; rewrite ?shape_kick_field; done.
Qed.

(** C4.  [energy] is [(pz + 1) * p0c] and, [MC2] being a constant other
    than 0, [gamma] is [energy / MC2], particle by particle; both arrays
    have one entry per particle.  At [pz = 0] the energy is [p0c]: the
    map is affine. *)
Theorem energy_gamma_affine (b : Beam) :
  MC2 <> 0 ->
  length (energy b) = length (pz b)
  ∧ length (gamma MC2 b) = length (pz b)
  ∧ forall i v,
      pz b !! i = Some v ->
      energy b !! i = Some ((v + 1) * Particle.p0c (particle b))
      ∧ gamma MC2 b !! i
        = Some ((v + 1) * Particle.p0c (particle b) / MC2).
Proof.
  intros _. unfold gamma, energy, pz. rewrite !length_map.
  split; [done|]. split; [done|]. intros i v Hv.
  rewrite !list_lookup_fmap, Hv. done.
Qed.

(** C5.  Whatever [apply_wakes] is called with and whether it returns
    or raises, the object it leaves has the same [x], [y], [z], [s] and
    [py]; with [transverse_on] false it has the same [px] too. *)
Theorem apply_wakes_frame (dE_dct x_kick : list (list Qc))
    (xrange zrange : list Qc) (step_size : Qc) (transverse_on : bool)
    (b : Beam) :
  let b' := snd (apply_wakes np_std dE_dct x_kick xrange zrange step_size
                   transverse_on b) in
  Particle.x (particle b') = Particle.x (particle b)
  ∧ Particle.y (particle b') = Particle.y (particle b)
  ∧ Particle.z (particle b') = Particle.z (particle b)
  ∧ Particle.s (particle b') = Particle.s (particle b)
  ∧ Particle.py (particle b') = Particle.py (particle b)
  ∧ (transverse_on = false ->
     Particle.px (particle b') = Particle.px (particle b)).
Proof.
  pose proof (apply_wakes_run dE_dct x_kick xrange zrange step_size
                transverse_on b) as Hrun. cbv zeta in *.
  destruct (Scipy.RegularGridInterpolator _ (kick_field _ _ dE_dct) _);
    [|rewrite Hrun; done].
  destruct (x_transform b); [|rewrite Hrun; done].
  destruct transverse_on.
  - destruct (Scipy.RegularGridInterpolator _ (kick_field _ _ x_kick) _);
      [|rewrite Hrun; done].
    destruct Hrun as (b' & -> & Hp & _). cbn [snd]. rewrite Hp. done.
  - destruct Hrun as (b' & -> & Hp & _). cbn [snd]. rewrite Hp. done.
Qed.

(** C3.  On a well-shaped wake and an ensemble of six columns of one
    length whose fit is defined,
    [apply_wakes] returns, wherever the particles are; and a particle
    whose [(x_transform, z)] pair is outside the rectangle of the axes
    keeps its [pz] and its [px], whatever the fields hold and whether
    or not the transverse kick is on. *)
Theorem apply_wakes_outside_hull (dE_dct x_kick : list (list Qc))
    (xrange zrange : list Qc) (step_size : Qc) (transverse_on : bool)
    (b : Beam) (xt : list Qc) :
  wake_grid xrange zrange dE_dct ->
  (transverse_on = true -> wake_grid xrange zrange x_kick) ->
  well_formed (particle b) ->
  x_transform b = Return xt ->
  exists b',
    apply_wakes np_std dE_dct x_kick xrange zrange step_size transverse_on b
    = (Return tt, b')
    ∧ forall i u v,
        xt !! i = Some u -> z b !! i = Some v ->
        outside_hull xrange zrange (u, v) ->
        pz b' !! i = pz b !! i ∧ px b' !! i = px b !! i.
Proof.
  intros Hg Hk _ Hxt.
  pose proof (apply_wakes_run dE_dct x_kick xrange zrange step_size
                transverse_on b) as Hrun. cbv zeta in Hrun.
  rewrite Hxt in Hrun.
  rewrite RegularGridInterpolator_ok in Hrun
    by (destruct Hg as (? & ? & ?); repeat split;
        rewrite ?shape_kick_field; done).
  assert (forall (f : Scipy.interpolator) (p : list Qc) i u v,
            Scipy.grid f = (xrange, zrange) -> Scipy.fill_value f = 0 ->
            xt !! i = Some u -> z b !! i = Some v ->
            outside_hull xrange zrange (u, v) ->
            Np.add p (Scipy.call f (zip xt (z b))) !! i = p !! i) as Hzero.
  { intros f p i u v Hgr Hfill Hu Hv Hout. unfold Np.add, Scipy.call.
    rewrite lookup_zip_with, list_lookup_fmap, lookup_zip_with, Hu, Hv.
    cbn. rewrite call1_outside by (rewrite Hgr; exact Hout).
    rewrite Hfill. destruct (p !! i); cbn; [|done].
    now rewrite Qcplus_0_r. }
  destruct transverse_on.
  - rewrite RegularGridInterpolator_ok in Hrun
      by (destruct (Hk eq_refl) as (? & ? & ?); repeat split;
          rewrite ?shape_kick_field; done).
    destruct Hrun as (b' & Hr & Hp & _). exists b'. split; [done|].
    intros i u v Hu Hv Hout. unfold pz, px. rewrite Hp. cbn.
    split; eapply Hzero; eauto.
  - destruct Hrun as (b' & Hr & Hp & _). exists b'. split; [done|].
    intros i u v Hu Hv Hout. unfold pz, px. rewrite Hp. cbn.
    split; [eapply Hzero; eauto | done].
Qed.



Lemma polyfit_single (z0 x0 : Qc) :
  z0 <> 0 -> Np.polyfit [z0] [x0] = Return (x0 / (2 * z0), x0 / 2).
Proof.
  intros Hz. rewrite polyfit_unfold by (simpl; lia). cbv zeta.
  assert (Np.of_nat (length [z0]) = 1) as ->
    by (cbn [length]; rewrite of_nat_S, of_nat_0; ring).
  unfold Np.mean.
  assert (Np.of_nat (length [x0]) = 1) as ->
    by (cbn [length]; rewrite of_nat_S, of_nat_0; ring).
  np_step. rewrite bool_decide_eq_true_2 by ring.
  rewrite bool_decide_eq_false_2.
  - change (default 0 (head [z0])) with z0. f_equal. f_equal; field; done.
  - intros E. apply Hz, sq_zero. rewrite <- E. cbn. ring.
Qed.

(** C6, as the code has it.  [slope] has no check of the number of
    particles: what happens is what [np.polyfit] does.  Without a
    particle it raises [TypeError]; with one particle at [z0 <> 0] it
    returns the line [(x0 / (2 z0), x0 / 2)] through that particle; with
    two or more particles, not all at [z = 0], it returns a line of
    least squared error. *)
Theorem slope_fit (b : Beam) :
  length (z b) = length (x b) ->
  (n_particle b = 0%nat -> exists msg, slope b = Raise (TypeError msg))
  ∧ (forall x0 z0,
       x b = [x0] -> z b = [z0] -> z0 <> 0 ->
       slope b = Return (x0 / (2 * z0), x0 / 2))
  ∧ ((2 <= n_particle b)%nat -> Exists (fun v => v <> 0) (z b) ->
     exists a c,
       slope b = Return (a, c)
       ∧ forall a' c',
           squared_error a c (z b) (x b) ≤ squared_error a' c' (z b) (x b)).
Proof.
  intros El. unfold slope, n_particle. fold (x b). split; [|split].
  - intros Hn. rewrite <- El in Hn. destruct (z b); [|discriminate].
    cbn. eauto.
  - intros x0 z0 -> -> Hz. now apply polyfit_single.
  - intros _ Hex.
    destruct (proj2 (polyfit_returns_iff (z b) (x b)) (conj El Hex))
      as [[a c] Hp].
    exists a, c. split; [done|]. now apply polyfit_least_squares.
Qed.



Lemma piecewise_linear_ext (xr zr : list Qc) (f g : nat -> nat -> Qc)
    (I : Qc * Qc -> Qc) :
  (forall i j, f i j = g i j) ->
  piecewise_linear xr zr f I -> piecewise_linear xr zr g I.
Proof.
  intros Hfg [Hout Hin]. split; [exact Hout|].
  intros pt Hpt. destruct (Hin pt Hpt) as (i & j & H).
  exists i, j. unfold bilinear in *. now rewrite <- !Hfg.
Qed.

Lemma item_repeat (c : Qc) (n m i j : nat) :
  (i < n)%nat -> (j < m)%nat ->
  Scipy.item (repeat (repeat c m) n) i j = c.
Proof.
  intros Hi Hj. unfold Scipy.item.
  rewrite (nth_repeat_lt (repeat c m)) by done. now rewrite nth_repeat_lt.
Qed.

Lemma shape_repeat (c : Qc) (n m : nat) :
  (0 < n)%nat -> Scipy.shape (repeat (repeat c m) n) = (n, m).
Proof.
  intros Hn. unfold Scipy.shape. rewrite repeat_length.
  destruct n; [lia|]. simpl. now rewrite repeat_length.
Qed.

(** An axis whose first point is below its last has two points. *)
Lemma axis_two_points (g : list Qc) :
  nth 0 g 0 < List.last g 0 -> (2 <= length g)%nat.
Proof.
  destruct g as [|a [|c g]]; simpl; intros H; try lia;
    now apply Qclt_not_eq in H.
Qed.

Lemma inside_axis (g : list Qc) (lo hi u : Qc) :
  nth 0 g 0 ≤ lo -> hi ≤ List.last g 0 -> lo ≤ u -> u ≤ hi ->
  Scipy.out_of_bounds g u = false.
Proof.
  intros H1 H2 H3 H4. apply out_of_bounds_false.
  split; eapply Qcle_trans; eauto.
Qed.

Lemma scenario_fit :
  Np.polyfit [- 1; 0; 1] [- 1; 0; 1] = Return (1, 0).
Proof. apply (bool_decide_eq_true_1 _). vm_compute. reflexivity. Qed.

Lemma scenario_residuals :
  residuals 1 0 [- 1; 0; 1] [- 1; 0; 1] = [0; 0; 0].
Proof. apply (bool_decide_eq_true_1 _). vm_compute. reflexivity. Qed.

Lemma scenario_kick : 1 * 1 * e6 / e6 = 1.
Proof. apply Qc_is_canon. reflexivity. Qed.

Lemma scenario_order : - 1 ≤ 0 ∧ 0 ≤ 1 ∧ - 1 ≤ - 1 ∧ 1 ≤ 1 ∧ - 1 < 1.
Proof. repeat split; vm_compute; congruence. Qed.

(** C1.  On a well-shaped wake and an ensemble of six columns of one
    length whose fit is defined and whose initial energy is not 0,
    [apply_wakes] returns and every particle's [pz] has become
    [pz + I (x_transform, z)], where [I] is the piecewise-linear
    interpolant, 0 outside the axes, of the samples
    [step_size * dE_dct * 1e6 / init_energy].  In particular, three
    particles at [x = z = (-1, 0, 1)] have [x_transform = (0, 0, 0)], and
    a field that is 1.0 on every point of a mesh covering them, with
    [step_size = 1] and [init_energy = 1e6], adds exactly 1 to each
    [pz]. *)
Theorem apply_wakes_energy_kick :
  (forall (dE_dct x_kick : list (list Qc)) (xrange zrange : list Qc)
          (step_size : Qc) (transverse_on : bool) (b : Beam)
          (xt : list Qc),
      wake_grid xrange zrange dE_dct ->
      (transverse_on = true -> wake_grid xrange zrange x_kick) ->
      well_formed (particle b) ->
      x_transform b = Return xt ->
      init_energy b <> 0 ->
      let I := Scipy.call1
                 (Scipy.Interpolator (xrange, zrange)
                    (kick_field step_size (init_energy b) dE_dct) 0) in
      ((2 <= length xrange)%nat -> (2 <= length zrange)%nat ->
       piecewise_linear xrange zrange
         (fun i j => step_size * Scipy.item dE_dct i j * e6 / init_energy b)
         I)
      ∧ exists b',
          apply_wakes np_std dE_dct x_kick xrange zrange step_size
            transverse_on b = (Return tt, b')
          ∧ pz b' = Np.add (pz b) (map I (zip xt (z b)))
          ∧ forall i p u v,
              pz b !! i = Some p -> xt !! i = Some u -> z b !! i = Some v ->
              pz b' !! i = Some (p + I (u, v)))
  ∧ (forall (x_kick : list (list Qc)) (xrange zrange : list Qc)
            (transverse_on : bool) (b : Beam) (p1 p2 p3 : Qc),
        x b = [- 1; 0; 1] -> z b = [- 1; 0; 1] -> pz b = [p1; p2; p3] ->
        well_formed (particle b) ->
        init_energy b = e6 ->
        Scipy.strictly_ascending xrange = true ->
        Scipy.strictly_ascending zrange = true ->
        nth 0 xrange 0 ≤ - 1 -> 1 ≤ List.last xrange 0 ->
        nth 0 zrange 0 ≤ - 1 -> 1 ≤ List.last zrange 0 ->
        (transverse_on = true -> wake_grid xrange zrange x_kick) ->
        x_transform b = Return [0; 0; 0]
        ∧ exists b',
            apply_wakes np_std
              (repeat (repeat 1 (length zrange)) (length xrange))
              x_kick xrange zrange 1 transverse_on b = (Return tt, b')
            ∧ pz b' = [p1 + 1; p2 + 1; p3 + 1]).
Proof.
  assert (forall (dE_dct x_kick : list (list Qc)) (xrange zrange : list Qc)
            (step_size : Qc) (transverse_on : bool) (b : Beam)
            (xt : list Qc),
             wake_grid xrange zrange dE_dct ->
             (transverse_on = true -> wake_grid xrange zrange x_kick) ->
             x_transform b = Return xt ->
             exists b',
               apply_wakes np_std dE_dct x_kick xrange zrange step_size
                 transverse_on b = (Return tt, b')
               ∧ pz b'
                 = Np.add (pz b)
                     (map (Scipy.call1
                             (Scipy.Interpolator (xrange, zrange)
                                (kick_field step_size (init_energy b) dE_dct)
                                0))
                        (zip xt (z b)))) as Hgen.
  { intros dE_dct x_kick xrange zrange step_size transverse_on b xt
      Hg Hk Hxt.
    pose proof (apply_wakes_run dE_dct x_kick xrange zrange step_size
                  transverse_on b) as Hrun. cbv zeta in Hrun.
    rewrite Hxt in Hrun.
    rewrite RegularGridInterpolator_ok in Hrun
      by (destruct Hg as (? & ? & ?); repeat split;
          rewrite ?shape_kick_field; done).
    destruct transverse_on.
    - rewrite RegularGridInterpolator_ok in Hrun
        by (destruct (Hk eq_refl) as (? & ? & ?); repeat split;
            rewrite ?shape_kick_field; done).
      destruct Hrun as (b' & Hr & Hp & _). exists b'. split; [done|].
      unfold pz at 1. rewrite Hp. reflexivity.
    - destruct Hrun as (b' & Hr & Hp & _). exists b'. split; [done|].
      unfold pz at 1. rewrite Hp. reflexivity. }
  split.
  - intros dE_dct x_kick xrange zrange step_size transverse_on b xt
      Hg Hk _ Hxt _ I. split.
    2:{ destruct (Hgen dE_dct x_kick xrange zrange step_size transverse_on b
                    xt Hg Hk Hxt) as (b' & Hr & Hp).
        exists b'. split; [exact Hr|]. split; [exact Hp|].
        intros i p u v Hpi Hu Hv. rewrite Hp. unfold Np.add.
        rewrite lookup_zip_with, list_lookup_fmap, lookup_zip_with,
          Hpi, Hu, Hv. reflexivity. }
    intros Lx Lz. destruct Hg as (Ax & Az & _).
    apply (piecewise_linear_ext _ _
             (Scipy.item (kick_field step_size (init_energy b) dE_dct))).
    + intros i j. apply item_kick_field.
    + now apply interpolator_piecewise_linear.
  - intros x_kick xrange zrange transverse_on b p1 p2 p3
      Hx Hz Hpz _ HE Ax Az Hx0 Hx1 Hz0 Hz1 Hk.
    destruct scenario_order as (O1 & O2 & O3 & O4 & O5).
    assert (2 <= length xrange)%nat as Lx.
    { apply axis_two_points. eapply Qcle_lt_trans; [exact Hx0|].
      eapply Qclt_le_trans; [exact O5 | exact Hx1]. }
    assert (2 <= length zrange)%nat as Lz.
    { apply axis_two_points. eapply Qcle_lt_trans; [exact Hz0|].
      eapply Qclt_le_trans; [exact O5 | exact Hz1]. }
    assert (x_transform b = Return [0; 0; 0]) as Hxt.
    { unfold x_transform, slope. rewrite Hx, Hz, scenario_fit.
      change (Return (residuals 1 0 [- 1; 0; 1] [- 1; 0; 1])
              = Return [0; 0; 0]).
      now rewrite scenario_residuals. }
    split; [exact Hxt|].
    destruct (Hgen (repeat (repeat 1 (length zrange)) (length xrange))
                x_kick xrange zrange 1 transverse_on b [0; 0; 0])
      as (b' & Hr & Hp); [|done|done|].
    { repeat split; try done. apply shape_repeat. lia. }
    exists b'. split; [exact Hr|]. rewrite Hp, Hpz, Hz, HE.
    assert (forall v, - 1 ≤ v -> v ≤ 1 ->
              Scipy.call1
                (Scipy.Interpolator (xrange, zrange)
                   (kick_field 1 e6
                      (repeat (repeat 1 (length zrange)) (length xrange))) 0)
                (0, v) = 1) as Hone.
    { intros v Hv1 Hv2. apply call1_flat; try done.
      - now apply (inside_axis xrange (- 1) 1).
      - now apply (inside_axis zrange (- 1) 1).
      - intros i j Hi Hj. rewrite item_kick_field, item_repeat by done.
        apply scenario_kick. }
    cbn [zip_with map Np.add].
    rewrite !Hone by (try done; try (apply Qclt_le_weak; done)).
    reflexivity.
Qed.

End BeamFacts.

(** ** The constructor *)

Section Construction.

Context (MC2 : Qc) (np_std : list Qc -> Qc).
Context (np_loadtxt : value -> outcome ndarray).
Context (PG : Type) (pg_charge : PG -> Qc) (pg_energy : PG -> list Qc).
Context (Generator_run ParticleGroup : value -> outcome PG).
Context (openpmd_to_bmadx_particles :
           PG -> Qc -> Qc -> Qc -> outcome Particle.t).

Abbreviation init :=
  (__init__ MC2 np_std np_loadtxt PG pg_charge pg_energy Generator_run
     ParticleGroup openpmd_to_bmadx_particles).

Lemma for_assert_cases {A} (l : list A) (P : A -> bool) (msg : string) :
  (for_ l (fun a => assert (P a) msg) = Return tt
   ∧ forall a, a ∈ l -> P a = true)
  ∨ (for_ l (fun a => assert (P a) msg) = Raise (AssertionError msg)
     ∧ exists a, a ∈ l ∧ P a = false).
Proof.
  induction l as [|a l IH].
  - left. split; [done|]. intros a Ha. inversion Ha.
  - simpl. destruct (P a) eqn:Ea; simpl.
    + destruct IH as [[-> H] | [-> (a' & Ha' & HP)]].
      * left. split; [done|]. intros a' Ha'.
        inversion Ha'; subst; [done | now apply H].
      * right. split; [done|]. exists a'. split; [now right | done].
    + right. split; [done|]. exists a. split; [now left | done].
Qed.

(** [check_inputs] on a dictionary whose style is one of the three:
    it returns the required fields when every key is allowed and every
    required field is there, and fails an assertion otherwise. *)
Lemma check_inputs_cases (input_beam : gmap string value) (sty : value)
    (R : list string) :
  input_beam !! "style" = Some sty -> required_for sty = Some R ->
  (check_inputs input_beam = Return R
   ∧ (forall k, k ∈ dom input_beam -> k ∈ R ++ ["verbose"])
   ∧ (forall r, r ∈ R -> r ∈ dom input_beam))
  ∨ ((exists msg, check_inputs input_beam = Raise (AssertionError msg))
     ∧ ((exists k, k ∈ dom input_beam ∧ k ∉ R ++ ["verbose"])
        ∨ (exists r, r ∈ R ∧ r ∉ dom input_beam))).
Proof.
  intros Hsty HR. unfold check_inputs, getitem. rewrite Hsty.
  rewrite bool_decide_eq_true_2 by (apply elem_of_dom; eauto).
  cbn [assert bind].
  assert ((if bool_decide (sty = VStr "from_file")
           then Return ["style"; "beamfile"; "charge"; "energy"]
           else if bool_decide (sty = VStr "distgen")
           then Return ["style"; "distgen_input_file"]
           else if bool_decide (sty = VStr "ParticleGroup")
           then Return ["style"; "particleGroup_h5"]
           else Raise (Exception
                         "input beam parsing Error: invalid input style"))
          = Return R) as ->.
  { unfold required_for in HR. repeat case_bool_decide; congruence. }
  cbn [bind].
  destruct (for_assert_cases (elements (dom input_beam))
              (fun k => bool_decide (k ∈ R ++ ["verbose"]))
              "Incorrect param given to __init__(**kwargs)")
    as [[-> Hk] | [-> (k & Hk & HP)]]; cbn [bind].
  - destruct (for_assert_cases R
                (fun r => bool_decide (r ∈ dom input_beam))
                "Required input parameter to __init__(**kwargs) was not found.")
      as [[-> Hr] | [-> (r & Hr & HP)]]; cbn [bind].
    + left. split; [done|]. split.
      * intros k Hkd. apply elem_of_elements in Hkd.
        now apply (bool_decide_eq_true_1 _), Hk.
      * intros r Hrr. now apply (bool_decide_eq_true_1 _), Hr.
    + right. split; [eauto|]. right. exists r. split; [done|].
      now apply (bool_decide_eq_false_1 _).
  - right. split; [eauto|]. left. exists k. split.
    + now apply elem_of_elements.
    + now apply (bool_decide_eq_false_1 _).
Qed.

(** An object the constructor returned has consistent statistics, so
    the fit is defined on its coordinates; it starts at position 0 and
    step 0. *)
Lemma init_returns (input_beam : gmap string value) (b : Beam) :
  init input_beam = Return b ->
  status_consistent np_std b ∧ fit_defined b
  ∧ position b = 0 ∧ step b = 0%nat.
Proof.
  unfold __init__.
  destruct (check_inputs input_beam) as [R|]; [|discriminate].
  cbn [bind]. destruct (getitem input_beam "style") as [sty|]; [|discriminate].
  cbn [bind]. destruct (load _ _ _ _ _ _ _ _ _ _) as [[[chg en] p]|];
    [|discriminate].
  cbn [bind]. set (self := mkBeam _ _ _ _ _ _ _ _ _ _ _ _ _ _).
  destruct (slope self) as [q|e] eqn:Hs.
  - destruct (update_status_returns np_std self q Hs)
      as (b' & -> & Hp & Hpos & Hst & _ & Hc).
    intros [= <-]. split; [done|]. split; [|done].
    apply fit_defined_slope. destruct Hc as (_ & _ & (q' & Hq & _) & _).
    eauto.
  - destruct (update_status_raises np_std self e Hs) as (b' & -> & _).
    discriminate.
Qed.

(** C7.  With a style that is one of the three, the constructor fails
    an assertion when a key of the dictionary is not allowed or a
    required field is missing; and with style ['from_file'] it fails an
    assertion when the coordinate table read from the file has rows of
    another length than six.  Whatever array the file yields, a 1-D one
    included, the constructor raises unless [coords.shape[1]] is 6. *)
Theorem init_rejects_bad_input (input_beam : gmap string value)
    (sty : value) (R : list string) :
  input_beam !! "style" = Some sty -> required_for sty = Some R ->
  ((exists k, k ∈ dom input_beam ∧ k ∉ R ++ ["verbose"])
   ∨ (exists r, r ∈ R ∧ r ∉ dom input_beam) ->
   exists msg, init input_beam = Raise (AssertionError msg))
  ∧ (sty = VStr "from_file" ->
     (forall f, input_beam !! "beamfile" = Some f ->
                exists rows, np_loadtxt f = Return (Array2 rows)
                             ∧ snd (Scipy.shape rows) <> 6%nat) ->
     exists msg, init input_beam = Raise (AssertionError msg))
  ∧ (sty = VStr "from_file" ->
     (forall f, input_beam !! "beamfile" = Some f ->
                exists coords, np_loadtxt f = Return coords
                               ∧ shape_1 coords <> Return 6%nat) ->
     raises (init input_beam)).
Proof.
  intros Hsty HR.
  destruct (check_inputs_cases input_beam sty R Hsty HR)
    as [(Hc & Hk & Hr) | [[msg Hc] Hbad]].
  - split.
    + intros [(k & Hkd & Hkn) | (r & Hrr & Hrn)]; exfalso; eauto.
    + split; cycle 1.
      { intros -> Hfile. injection HR as <-.
        assert ("beamfile" ∈ dom input_beam) as Hb
          by (apply Hr; set_solver).
        apply elem_of_dom in Hb as [f Hf].
        destruct (Hfile f Hf) as (coords & Hload & Hcols).
        unfold __init__. rewrite Hc. cbn [bind]. unfold getitem at 1.
        rewrite Hsty. cbn [bind]. unfold load.
        rewrite bool_decide_eq_true_2 by done.
        unfold getitem at 1. rewrite Hf. cbn [bind]. rewrite Hload.
        cbn [bind]. destruct (shape_1 coords) as [n|e]; [|exact I].
        cbn [bind]. destruct (n =? 6)%nat eqn:En; [|exact I].
        apply Nat.eqb_eq in En. congruence. }
      intros -> Hfile. injection HR as <-.
      assert ("beamfile" ∈ dom input_beam) as Hb
        by (apply Hr; set_solver).
      apply elem_of_dom in Hb as [f Hf].
      destruct (Hfile f Hf) as (rows & Hload & Hcols).
      unfold __init__. rewrite Hc. cbn [bind]. unfold getitem at 1.
      rewrite Hsty. cbn [bind]. unfold load.
      rewrite bool_decide_eq_true_2 by done.
      unfold getitem at 1. rewrite Hf. cbn [bind]. rewrite Hload.
      cbn [bind shape_1].
      apply Nat.eqb_neq in Hcols. rewrite Hcols. cbn. eauto.
  - assert (exists msg, init input_beam = Raise (AssertionError msg)) as H
      by (exists msg; unfold __init__; rewrite Hc; reflexivity).
    split; [intros; exact H|]. split; [intros; exact H|].
    intros _ _. destruct H as [m ->]. exact I.
Qed.

(** C10.  A dictionary of style ['ParticleGroup'] that holds
    ['particleGroup_h5'] and no key but that, ['style'] and ['verbose']
    passes [check_inputs]; the constructor then looks up
    ['ParticleGroup_h5'] and raises [KeyError]. *)
Theorem init_ParticleGroup_KeyError (input_beam : gmap string value) :
  input_beam !! "style" = Some (VStr "ParticleGroup") ->
  "particleGroup_h5" ∈ dom input_beam ->
  (forall k, k ∈ dom input_beam ->
             k ∈ ["style"; "particleGroup_h5"; "verbose"]) ->
  check_inputs input_beam = Return ["style"; "particleGroup_h5"]
  ∧ init input_beam = Raise (KeyError "ParticleGroup_h5").
Proof.
  intros Hsty Hh5 Hdom.
  assert (check_inputs input_beam = Return ["style"; "particleGroup_h5"])
    as Hc.
  { destruct (check_inputs_cases input_beam (VStr "ParticleGroup")
                ["style"; "particleGroup_h5"] Hsty eq_refl)
      as [(Hc & _) | [_ [(k & Hkd & Hkn) | (r & Hrr & Hrn)]]]; [done|..].
    - exfalso. apply Hkn. now apply Hdom.
    - exfalso. apply Hrn.
      apply elem_of_cons in Hrr as [-> | Hrr];
        [apply elem_of_dom; eauto|].
      apply elem_of_cons in Hrr as [-> | Hrr]; [done | inversion Hrr]. }
  split; [exact Hc|].
  unfold __init__. rewrite Hc. cbn [bind]. unfold getitem at 1.
  rewrite Hsty. cbn [bind]. unfold load.
  rewrite !bool_decide_eq_false_2 by discriminate.
  unfold getitem.
  destruct (input_beam !! "ParticleGroup_h5") as [v|] eqn:Hv; [|done].
  exfalso. assert ("ParticleGroup_h5" ∈ dom input_beam) as Hin
    by (apply elem_of_dom; eauto).
  apply Hdom in Hin.
  repeat (apply elem_of_cons in Hin as [Hin | Hin]; [discriminate|]).
  inversion Hin.
Qed.

End Construction.

(** ** The statistics refresh and the tracking step, further *)

Section Refresh.

Context (np_std : list Qc -> Qc).
Context (Element : Type)
        (track_element : Particle.t -> Element -> outcome Particle.t).

Lemma update_status_eq (b : Beam) (p : Qc * Qc) :
  slope b = Return p ->
  update_status np_std b = (Return tt, refreshed np_std p b).
Proof.
  intros Hs. unfold update_status, mbind_, read, lift, modify. cbn.
  change (slope _) with (slope b). rewrite Hs. reflexivity.
Qed.

Lemma update_status_fail_eq (b : Beam) (e : exn) :
  slope b = Raise e ->
  update_status np_std b
  = (Raise e, set__sigma_z (sigma_z np_std b)
                (set__sigma_x (sigma_x np_std b) b)).
Proof.
  intros Hs. unfold update_status, mbind_, read, lift, modify. cbn.
  change (slope _) with (slope b). rewrite Hs. reflexivity.
Qed.

(** X8.  [update_status] is the identity exactly on the objects whose
    cached statistics already agree with their coordinates. *)
Theorem update_status_identity_iff (b : Beam) :
  status_consistent np_std b <-> update_status np_std b = (Return tt, b).
Proof.
  split.
  - intros (Hsx & Hsz & (p & Hp & Hsl) & Hmx & Hmz).
    rewrite (update_status_eq b p Hp). f_equal.
    destruct b. cbn in *. unfold refreshed. cbn.
    rewrite Hsx, Hsz, Hsl, Hmx, Hmz. reflexivity.
  - intros H. destruct (slope b) as [p|e] eqn:Hs.
    + rewrite (update_status_eq b p Hs) in H. injection H as H.
      repeat split.
      * now rewrite <- H at 1.
      * now rewrite <- H at 1.
      * exists p. split; [done|]. now rewrite <- H at 1.
      * now rewrite <- H at 1.
      * now rewrite <- H at 1.
    + rewrite (update_status_fail_eq b e Hs) in H. discriminate.
Qed.

(** When the fit fails, [update_status] raises in the middle of its
    assignments: [_sigma_x] and [_sigma_z] are already rewritten, while
    [_slope], [_mean_x] and [_mean_z] keep the values of the last
    completed refresh.  Coordinates, position and step are untouched. *)
Lemma update_status_partial (b : Beam) (e : exn) :
  slope b = Raise e ->
  exists b',
    update_status np_std b = (Raise e, b')
    ∧ particle b' = particle b
    ∧ position b' = position b ∧ step b' = step b
    ∧ _sigma_x b' = Some (sigma_x np_std b)
    ∧ _sigma_z b' = Some (sigma_z np_std b)
    ∧ _slope b' = _slope b
    ∧ _mean_x b' = _mean_x b
    ∧ _mean_z b' = _mean_z b.
Proof.
  intros Hs. eexists. split; [apply update_status_fail_eq, Hs|].
  repeat split.
Qed.


Lemma track_eq (element : Element) (step_size : Qc) (update_step : bool)
    (b : Beam) (p' : Particle.t) :
  track_element (particle b) element = Return p' ->
  track np_std Element track_element element step_size update_step b
  = update_status np_std (advanced p' step_size update_step b).
Proof.
  intros Ht. unfold track, mbind_, lift, modify, ret, advanced. rewrite Ht.
  destruct update_step; reflexivity.
Qed.

Lemma advanced_fields (p' : Particle.t) (step_size : Qc) (update_step : bool)
    (b : Beam) :
  let b1 := advanced p' step_size update_step b in
  particle b1 = p'
  ∧ position b1 = position b + step_size
  ∧ step b1 = (if update_step then step b + 1 else step b)%nat
  ∧ same_settings b b1
  ∧ _slope b1 = _slope b ∧ _mean_x b1 = _mean_x b ∧ _mean_z b1 = _mean_z b.
Proof. unfold advanced. destruct update_step; repeat split. Qed.

Lemma refreshed_fields (p : Qc * Qc) (b : Beam) :
  particle (refreshed np_std p b) = particle b
  ∧ position (refreshed np_std p b) = position b
  ∧ step (refreshed np_std p b) = step b
  ∧ same_settings b (refreshed np_std p b).
Proof. repeat split. Qed.

Lemma refreshed_consistent (p : Qc * Qc) (b : Beam) :
  slope b = Return p -> status_consistent np_std (refreshed np_std p b).
Proof. intros Hs. repeat split. exists p. split; [exact Hs | reflexivity]. Qed.

(** X9.  A step made of two elements: [track] over the first with
    [update_step=False], then over the second with [update_step=True].
    When both transports return particles on which the fit is defined,
    both calls return; the object holds the particles of the second
    transport, its position has grown by the two lengths, its step by
    one, its settings are those before, its statistics are consistent. *)
Theorem track_two_elements (e1 e2 : Element) (l1 l2 : Qc) (b : Beam)
    (p1 p2 : Particle.t) (q1 q2 : Qc * Qc) :
  track_element (particle b) e1 = Return p1 ->
  track_element p1 e2 = Return p2 ->
  Np.polyfit (Particle.z p1) (Particle.x p1) = Return q1 ->
  Np.polyfit (Particle.z p2) (Particle.x p2) = Return q2 ->
  exists b1 b2,
    track np_std Element track_element e1 l1 false b = (Return tt, b1)
    ∧ track np_std Element track_element e2 l2 true b1 = (Return tt, b2)
    ∧ particle b2 = p2
    ∧ position b2 = position b + l1 + l2
    ∧ step b2 = (step b + 1)%nat
    ∧ same_settings b b2
    ∧ status_consistent np_std b2.
Proof.
  intros Ht1 Ht2 Hq1 Hq2.
  set (b1 := refreshed np_std q1 (advanced p1 l1 false b)).
  set (b2 := refreshed np_std q2 (advanced p2 l2 true b1)).
  exists b1, b2.
  assert (track np_std Element track_element e1 l1 false b = (Return tt, b1))
    as H1 by (rewrite (track_eq e1 l1 false b p1 Ht1);
              now apply update_status_eq).
  assert (track np_std Element track_element e2 l2 true b1 = (Return tt, b2))
    as H2 by (rewrite (track_eq e2 l2 true b1 p2 Ht2);
              now apply update_status_eq).
  split; [exact H1|]. split; [exact H2|].
  split; [reflexivity|]. split; [reflexivity|]. split; [reflexivity|].
  split; [repeat split|]. now apply refreshed_consistent.
Qed.

(** X10.  [track] does not roll back.  When the transport returns
    particles on which the fit fails (all at [z = 0], say), the call
    raises the fit's exception, yet the object already holds the new
    particles, the advanced position and the counted step, with [_slope],
    [_mean_x] and [_mean_z] still those of the old coordinates: its
    statistics are not consistent. *)
Theorem track_no_rollback (element : Element) (step_size : Qc)
    (update_step : bool) (b : Beam) (p' : Particle.t) (e : exn) :
  track_element (particle b) element = Return p' ->
  Np.polyfit (Particle.z p') (Particle.x p') = Raise e ->
  exists b',
    track np_std Element track_element element step_size update_step b
    = (Raise e, b')
    ∧ particle b' = p'
    ∧ position b' = position b + step_size
    ∧ step b' = (if update_step then step b + 1 else step b)%nat
    ∧ _slope b' = _slope b ∧ _mean_x b' = _mean_x b ∧ _mean_z b' = _mean_z b
    ∧ ~ status_consistent np_std b'.
Proof.
  intros Ht He. rewrite (track_eq element step_size update_step b p' Ht).
  destruct (advanced_fields p' step_size update_step b)
    as (Hp & Hpos & Hst & _ & Hsl & Hmx & Hmz).
  assert (slope (advanced p' step_size update_step b) = Raise e) as Hs
    by (unfold slope, z, x; rewrite Hp; exact He).
  pose proof (update_status_fail_eq _ e Hs) as Hrun.
  set (b' := set__sigma_z _ _) in Hrun.
  assert (particle b' = particle (advanced p' step_size update_step b)
          ∧ position b' = position (advanced p' step_size update_step b)
          ∧ step b' = step (advanced p' step_size update_step b)
          ∧ _slope b' = _slope (advanced p' step_size update_step b)
          ∧ _mean_x b' = _mean_x (advanced p' step_size update_step b)
          ∧ _mean_z b' = _mean_z (advanced p' step_size update_step b))
    as (Hp' & Hpos' & Hst' & Hsl' & Hmx' & Hmz') by (repeat split).
  exists b'. split; [exact Hrun|].
  split; [congruence|]. split; [congruence|]. split; [congruence|].
  split; [congruence|]. split; [congruence|]. split; [congruence|].
  intros (_ & _ & (q & Hq & _) & _).
  unfold slope, z, x in Hq. rewrite Hp', Hp, He in Hq. discriminate.
Qed.

End Refresh.

(** ** The fit and the de-chirped coordinate, further *)

Section Dechirp.

Lemma sum_polyval (al be : Qc) (zs : list Qc) :
  Np.sum (Np.polyval [al; be] zs)
  = al * Np.sum zs + Np.of_nat (length zs) * be.
Proof.
  induction zs as [|v zs IH]; np_step; [cbn; ring|]. rewrite IH. ring.
Qed.

Lemma sum_polyval_mul (al be : Qc) (zs : list Qc) :
  Np.sum (Np.mul (Np.polyval [al; be] zs) zs)
  = al * Np.sum (Np.mul zs zs) + be * Np.sum zs.
Proof.
  induction zs as [|v zs IH]; np_step; [cbn; ring|]. rewrite IH. ring.
Qed.

Lemma sum_add (xs ys : list Qc) :
  length xs = length ys -> Np.sum (Np.add xs ys) = Np.sum xs + Np.sum ys.
Proof.
  revert xs ys. apply list_ind2.
  - cbn. ring.
  - intros a c xs ys _ IH. unfold Np.add in *. cbn [zip_with]. np_step.
    rewrite IH. ring.
Qed.

Lemma sum_add_mul (xs ys zs : list Qc) :
  length xs = length ys -> length xs = length zs ->
  Np.sum (Np.mul (Np.add xs ys) zs)
  = Np.sum (Np.mul xs zs) + Np.sum (Np.mul ys zs).
Proof.
  intros Hxy. revert xs ys Hxy zs.
  apply (list_ind2 (fun xs ys => forall zs, length xs = length zs -> _)).
  - intros zs _. cbn. ring.
  - intros a c xs ys _ IH [|v zs] Hl; [discriminate|].
    unfold Np.add in *. cbn [zip_with]. np_step.
    rewrite IH by (simpl in Hl; lia). ring.
Qed.

Lemma distinct_det (zs : list Qc) (u v : Qc) :
  u ∈ zs -> v ∈ zs -> u <> v ->
  (0 < length zs)%nat
  ∧ Np.of_nat (length zs) * Np.sum (Np.mul zs zs) - Np.sum zs * Np.sum zs
    <> 0.
Proof.
  intros Hu Hv Huv.
  assert (0 < length zs)%nat as Hn
    by (destruct zs; [inversion Hu | simpl; lia]).
  split; [exact Hn|]. intros Hdet.
  pose proof (det_zero_all_eq zs Hn Hdet) as Hall.
  rewrite List.Forall_forall in Hall. apply Huv.
  apply list_elem_of_In in Hu, Hv. now rewrite (Hall u Hu), (Hall v Hv).
Qed.

Lemma polyfit_line (al be : Qc) (zs : list Qc) (u v : Qc) :
  u ∈ zs -> v ∈ zs -> u <> v ->
  Np.polyfit zs (Np.polyval [al; be] zs) = Return (al, be).
Proof.
  intros Hu Hv Huv. destruct (distinct_det zs u v Hu Hv Huv) as [Hn Hdet].
  pose proof (of_nat_neq_0 _ Hn) as Hn0.
  rewrite polyfit_unfold
    by (try done; unfold Np.polyval; now rewrite length_map).
  cbv zeta. rewrite bool_decide_eq_false_2 by done.
  rewrite sum_polyval, sum_polyval_mul. f_equal. f_equal; field; done.
Qed.

Lemma residuals_line (al be : Qc) (zs : list Qc) :
  residuals al be zs (Np.polyval [al; be] zs) = map (fun _ => 0) zs.
Proof.
  unfold residuals. induction zs as [|v zs IH]; [reflexivity|].
  np_step. rewrite IH. cbn [map]. f_equal. ring.
Qed.

(** X20.  Fit after evaluation is the identity on lines: when [x] is
    [np.polyval((al, be), z)] and two particles differ in [z], [slope]
    returns [(al, be)] exactly and [x_transform] is 0 for every
    particle. *)
Theorem slope_recovers_line (b : Beam) (al be u v : Qc) :
  x b = Np.polyval [al; be] (z b) ->
  u ∈ z b -> v ∈ z b -> u <> v ->
  slope b = Return (al, be)
  ∧ x_transform b = Return (map (fun _ => 0) (z b)).
Proof.
  intros Hx Hu Hv Huv.
  assert (slope b = Return (al, be)) as Hs
    by (unfold slope; rewrite Hx; now apply (polyfit_line al be _ u v)).
  split; [exact Hs|]. unfold x_transform. rewrite Hs. cbn [bind fst snd].
  fold (residuals al be (z b) (x b)). rewrite Hx. now rewrite residuals_line.
Qed.

(** X21.  The de-chirped coordinate is centred and uncorrelated with
    [z]: its entries sum to 0, so does their product with [z], and its
    mean is 0. *)
Theorem x_transform_centred (b : Beam) :
  fit_defined b ->
  exists xt,
    x_transform b = Return xt
    ∧ length xt = n_particle b
    ∧ Np.sum xt = 0
    ∧ Np.sum (Np.mul xt (z b)) = 0
    ∧ Np.mean xt = 0.
Proof.
  intros Hfit. destruct (proj1 (polyfit_returns_iff (z b) (x b)) ) as [El _].
  { apply polyfit_returns_iff. exact Hfit. }
  destruct (proj2 (polyfit_returns_iff (z b) (x b)) Hfit) as [[a c] Hp].
  destruct (polyfit_orthogonal _ _ _ _ Hp) as [H1 Hz].
  exists (residuals a c (z b) (x b)).
  split; [unfold x_transform, slope; rewrite Hp; reflexivity|].
  split; [unfold residuals, n_particle; rewrite length_resid by done;
          exact El|].
  split; [exact H1|]. split; [exact Hz|].
  unfold Np.mean. rewrite H1. unfold Qcdiv. ring.
Qed.

Lemma residuals_remove_chirp (zs xs : list Qc) (al be : Qc)
    (p : Qc * Qc) :
  Np.polyfit zs xs = Return p ->
  exists p',
    Np.polyfit zs (Np.add xs (Np.polyval [al; be] zs)) = Return p'
    ∧ residuals (fst p') (snd p') zs (Np.add xs (Np.polyval [al; be] zs))
      = residuals (fst p) (snd p) zs xs.
Proof.
  intros Hp. destruct p as [a c].
  destruct (polyfit_cases zs xs (a, c) Hp) as (Hn & El & Hcase).
  cbv zeta in Hcase. pose proof (of_nat_neq_0 _ Hn) as Hn0.
  set (xs' := Np.add xs (Np.polyval [al; be] zs)).
  assert (length (Np.polyval [al; be] zs) = length zs) as Hlp
    by (unfold Np.polyval; now rewrite length_map).
  assert (length xs' = length zs) as El'
    by (unfold xs', Np.add; rewrite length_zip_with; lia).
  assert (Np.sum xs' = Np.sum xs + (al * Np.sum zs
                                    + Np.of_nat (length zs) * be)) as Hsx
    by (unfold xs'; rewrite sum_add by lia; now rewrite sum_polyval).
  assert (Np.sum (Np.mul xs' zs)
          = Np.sum (Np.mul xs zs)
            + (al * Np.sum (Np.mul zs zs) + be * Np.sum zs)) as Hsxz
    by (unfold xs'; rewrite sum_add_mul by lia; now rewrite sum_polyval_mul).
  assert (forall a' c',
            (forall v, v ∈ zs -> a' * v + c' = a * v + c + (al * v + be)) ->
            residuals a' c' zs xs' = residuals a c zs xs) as Hres.
  { intros a' c' Hline. unfold residuals, xs', Np.add, Np.sub, Np.polyval.
    clear Hp Hcase Hn Hn0 El' Hsx Hsxz Hlp xs'. revert xs El Hline.
    induction zs as [|v zs IH]; intros [|w xs] El Hline;
      try discriminate; [reflexivity|].
    cbn [zip_with map]. rewrite !polyval1_line. f_equal.
    - rewrite (Hline v) by (left; done). ring.
    - apply IH; [simpl in El; lia|]. intros v' Hv'. apply Hline. now right. }
  rewrite polyfit_unfold by (try done; lia). cbv zeta.
  destruct Hcase as [[Hd [= -> ->]] | (Hd & Hzz & k & Hall & Hk & [= -> ->])].
  - rewrite bool_decide_eq_false_2 by done. eexists. split; [reflexivity|].
    cbn [fst snd]. apply Hres. intros v _. rewrite Hsx, Hsxz. field. done.
  - rewrite bool_decide_eq_true_2 by done.
    rewrite bool_decide_eq_false_2 by done. eexists. split; [reflexivity|].
    cbn [fst snd]. apply Hres. intros v Hv.
    pose proof Hall as Hin. rewrite List.Forall_forall in Hin.
    apply list_elem_of_In in Hv. rewrite (Hin v Hv).
    assert (default 0 (head zs) = k) as ->
      by (destruct zs as [|w zs]; [simpl in Hn; lia|];
          cbn; apply Hin; now left).
    unfold Np.mean. rewrite El', <- El, Hsx.
    rewrite (all_eq_sum k zs Hall). field. done.
Qed.

(** X22.  A linear chirp added to [x] does not show in [x_transform]:
    two ensembles with the same [z], the [x] of the second being the [x]
    of the first plus [al * z + be], have the same de-chirped
    coordinate. *)
Theorem x_transform_removes_chirp (b b' : Beam) (al be : Qc) :
  z b' = z b ->
  x b' = Np.add (x b) (Np.polyval [al; be] (z b)) ->
  fit_defined b ->
  exists xt, x_transform b = Return xt ∧ x_transform b' = Return xt.
Proof.
  intros Hz Hx Hfit.
  destruct (proj2 (polyfit_returns_iff (z b) (x b)) Hfit) as [p Hp].
  destruct (residuals_remove_chirp (z b) (x b) al be p Hp) as (p' & Hp' & Hr).
  exists (residuals (fst p) (snd p) (z b) (x b)). split.
  - unfold x_transform, slope. rewrite Hp. reflexivity.
  - unfold x_transform, slope. rewrite Hz, Hx, Hp'. cbn [bind].
    fold (residuals (fst p') (snd p') (z b)
            (Np.add (x b) (Np.polyval [al; be] (z b)))).
    now rewrite Hr.
Qed.

Lemma sum_energy (p0 : Qc) (l : list Qc) :
  Np.sum (map (fun v => (v + 1) * p0) l)
  = (Np.sum l + Np.of_nat (length l)) * p0.
Proof.
  induction l as [|v l IH]; np_step; [cbn; ring|]. rewrite IH. ring.
Qed.

(** X23.  The mean energy is the energy of the mean momentum deviation:
    with at least one particle, [mean_energy] is
    [(np.mean(pz) + 1) * p0c]. *)
Theorem mean_energy_affine (b : Beam) :
  (0 < length (pz b))%nat ->
  mean_energy b = (Np.mean (pz b) + 1) * Particle.p0c (particle b).
Proof.
  intros Hn. pose proof (of_nat_neq_0 _ Hn) as Hn0.
  unfold mean_energy, Np.mean, energy. fold (pz b).
  rewrite sum_energy, length_map. field. done.
Qed.

End Dechirp.

(** ** The wake kick, further *)

Section Wakes.

Context (np_std : list Qc -> Qc).

(** A completed [apply_wakes], in one equation. *)
Lemma apply_wakes_eq (dE_dct x_kick : list (list Qc))
    (xrange zrange : list Qc) (step_size : Qc) (transverse_on : bool)
    (b : Beam) (p : Qc * Qc) :
  wake_grid xrange zrange dE_dct ->
  (transverse_on = true -> wake_grid xrange zrange x_kick) ->
  slope b = Return p ->
  let xt := residuals (fst p) (snd p) (z b) (x b) in
  let E := init_energy b in
  apply_wakes np_std dE_dct x_kick xrange zrange step_size transverse_on b
  = (Return tt,
     refreshed np_std p
       (set_particle
          (kicked (particle b)
             (if transverse_on
              then Np.add (px b)
                     (map (wake_kick xrange zrange step_size E x_kick)
                        (zip xt (z b)))
              else px b)
             (Np.add (pz b)
                (map (wake_kick xrange zrange step_size E dE_dct)
                   (zip xt (z b))))) b)).
Proof.
  intros Hg Hk Hs. cbv zeta.
  assert (x_transform b
          = Return (residuals (fst p) (snd p) (z b) (x b))) as Hxt
    by (unfold x_transform; rewrite Hs; reflexivity).
  assert (forall f, wake_grid xrange zrange f ->
            Scipy.RegularGridInterpolator (xrange, zrange)
              (kick_field step_size (init_energy b) f) 0
            = Return (Scipy.Interpolator (xrange, zrange)
                        (kick_field step_size (init_energy b) f) 0)) as Hok.
  { intros f (? & ? & ?). apply RegularGridInterpolator_ok.
    repeat split; rewrite ?shape_kick_field; done. }
  unfold apply_wakes, mbind_, read, lift. cbn beta iota.
  rewrite (Hok dE_dct Hg), Hxt. cbn beta iota.
  destruct transverse_on.
  - rewrite (Hok x_kick (Hk eq_refl)), Hxt. unfold ret, modify.
    cbn beta iota. now apply update_status_eq.
  - unfold modify. cbn beta iota. now apply update_status_eq.
Qed.








Lemma length_residuals_zip (p : Qc * Qc) (zs xs : list Qc) :
  Np.polyfit zs xs = Return p ->
  length (zip (residuals (fst p) (snd p) zs xs) zs) = length xs.
Proof.
  intros [_ El]%polyfit_length. unfold residuals.
  rewrite length_zip_with, length_resid by done. lia.
Qed.

(** X11.  With the transverse kick on, [apply_wakes] returns and every
    particle's [px] has become [px + J (x_transform, z)], [J] being the
    piecewise-linear interpolant, 0 outside the axes, of
    [step_size * x_kick * 1e6 / init_energy], evaluated at the same
    de-chirped points as the energy kick. *)
Theorem apply_wakes_transverse_kick (dE_dct x_kick : list (list Qc))
    (xrange zrange : list Qc) (step_size : Qc) (b : Beam) (xt : list Qc) :
  wake_grid xrange zrange dE_dct ->
  wake_grid xrange zrange x_kick ->
  well_formed (particle b) ->
  x_transform b = Return xt ->
  init_energy b <> 0 ->
  let J := wake_kick xrange zrange step_size (init_energy b) x_kick in
  ((2 <= length xrange)%nat -> (2 <= length zrange)%nat ->
   piecewise_linear xrange zrange
     (fun i j => step_size * Scipy.item x_kick i j * e6 / init_energy b) J)
  ∧ exists b',
      apply_wakes np_std dE_dct x_kick xrange zrange step_size true b
      = (Return tt, b')
      ∧ px b' = Np.add (px b) (map J (zip xt (z b)))
      ∧ forall i p u v,
          px b !! i = Some p -> xt !! i = Some u -> z b !! i = Some v ->
          px b' !! i = Some (p + J (u, v)).
Proof.
  intros Hg Hk _ Hxt _ J. split.
  - intros Lx Lz. destruct Hk as (Ax & Az & _).
    apply (piecewise_linear_ext _ _
             (Scipy.item (kick_field step_size (init_energy b) x_kick))).
    + intros i j. apply item_kick_field.
    + now apply interpolator_piecewise_linear.
  - destruct (x_transform_slope b xt Hxt) as (p & Hp & ->).
    eexists. split; [apply (apply_wakes_eq _ _ _ _ _ true b p Hg); done|].
    split; [reflexivity|].
    intros i q u v Hq Hu Hv. unfold px at 1. cbn. fold (px b). unfold Np.add.
    rewrite lookup_zip_with, list_lookup_fmap, lookup_zip_with, Hq, Hu, Hv.
    reflexivity.
Qed.


(** X13.  What [apply_wakes] keeps, whether it returns or raises: the
    reference momentum [p0c] and [mc2] of the particle object, the
    position and the step count, the settings, the number of particles;
    six columns of one length stay so, and the fit is defined after the
    call exactly when it was before. *)
Theorem apply_wakes_keeps (dE_dct x_kick : list (list Qc))
    (xrange zrange : list Qc) (step_size : Qc) (transverse_on : bool)
    (b : Beam) :
  let b' := snd (apply_wakes np_std dE_dct x_kick xrange zrange step_size
                   transverse_on b) in
  Particle.p0c (particle b') = Particle.p0c (particle b)
  ∧ Particle.mc2 (particle b') = Particle.mc2 (particle b)
  ∧ position b' = position b ∧ step b' = step b
  ∧ same_settings b b'
  ∧ n_particle b' = n_particle b
  ∧ (well_formed (particle b) -> well_formed (particle b'))
  ∧ (fit_defined b <-> fit_defined b').
Proof.
  pose proof (apply_wakes_run np_std dE_dct x_kick xrange zrange step_size
                transverse_on b) as Hrun. cbv zeta in *.
  assert (forall b0, b0 = b ->
            Particle.p0c (particle b0) = Particle.p0c (particle b)
            ∧ Particle.mc2 (particle b0) = Particle.mc2 (particle b)
            ∧ position b0 = position b ∧ step b0 = step b
            ∧ same_settings b b0
            ∧ n_particle b0 = n_particle b
            ∧ (well_formed (particle b) -> well_formed (particle b0))
            ∧ (fit_defined b <-> fit_defined b0)) as Hsame
    by (intros b0 ->; do 4 (split; [reflexivity|]);
        split; [repeat split|]; split; [reflexivity|]; split; tauto).
  destruct (Scipy.RegularGridInterpolator _ (kick_field _ _ dE_dct) _)
    as [f|e]; [|rewrite Hrun; now apply Hsame].
  destruct (x_transform b) as [xt|e] eqn:Hxt; [|rewrite Hrun; now apply Hsame].
  destruct (x_transform_slope b xt Hxt) as (p & Hp & ->).
  pose proof (length_residuals_zip p (z b) (x b) Hp) as Hlen.
  assert (forall g,
            (exists b',
              apply_wakes np_std dE_dct x_kick xrange zrange step_size
                transverse_on b = (Return tt, b')
              ∧ particle b'
                = kicked (particle b)
                    (if transverse_on
                     then Np.add (px b)
                            (Scipy.call g
                               (zip (residuals (fst p) (snd p) (z b) (x b))
                                  (z b)))
                     else px b)
                    (Np.add (pz b)
                       (Scipy.call f
                          (zip (residuals (fst p) (snd p) (z b) (x b))
                             (z b))))
              ∧ position b' = position b ∧ step b' = step b
              ∧ same_settings b b' ∧ status_consistent np_std b') ->
            let b' := snd (apply_wakes np_std dE_dct x_kick xrange zrange
                             step_size transverse_on b) in
            Particle.p0c (particle b') = Particle.p0c (particle b)
            ∧ Particle.mc2 (particle b') = Particle.mc2 (particle b)
            ∧ position b' = position b ∧ step b' = step b
            ∧ same_settings b b'
            ∧ n_particle b' = n_particle b
            ∧ (well_formed (particle b) -> well_formed (particle b'))
            ∧ (fit_defined b <-> fit_defined b')) as Hok.
  { intros g (b' & -> & Hpart & Hpos & Hst & Hset & _). cbn [snd].
    unfold n_particle, fit_defined, z, x, well_formed. rewrite Hpart.
    cbn [kicked Particle.x Particle.px Particle.y Particle.py Particle.z
           Particle.pz Particle.p0c Particle.mc2].
    do 4 (split; [done|]). split; [exact Hset|]. split; [done|].
    split; [|done].
    intros (Hpx & Hy & Hpy & Hz & Hpz). unfold Np.add, Scipy.call.
    repeat split; try done.
    - destruct transverse_on; [|done].
      rewrite length_zip_with, length_map, Hlen. unfold px, x. lia.
    - rewrite length_zip_with, length_map, Hlen. unfold pz, x. lia. }
  destruct transverse_on.
  - destruct (Scipy.RegularGridInterpolator _ (kick_field _ _ x_kick) _)
      as [g|e]; [|rewrite Hrun; now apply Hsame].
    now apply (Hok g).
  - now apply (Hok (Scipy.Interpolator (xrange, zrange) [] 0)).
Qed.

(** X14.  Where the fit is not defined [apply_wakes] raises the fit's
    exception after the interpolator is built and before anything is
    assigned: the object is as it was.  For an ensemble without
    particles the exception is a [TypeError], for one with all [z = 0]
    a [LinAlgError]. *)
Theorem apply_wakes_fit_undefined (dE_dct x_kick : list (list Qc))
    (xrange zrange : list Qc) (step_size : Qc) (transverse_on : bool)
    (b : Beam) :
  wake_grid xrange zrange dE_dct ->
  length (z b) = length (x b) ->
  ~ fit_defined b ->
  exists e,
    apply_wakes np_std dE_dct x_kick xrange zrange step_size transverse_on b
    = (Raise e, b)
    ∧ (z b = [] -> exists msg, e = TypeError msg)
    ∧ (z b <> [] -> exists msg, e = LinAlgError msg).
Proof.
  intros Hg El Hfit.
  pose proof (apply_wakes_run np_std dE_dct x_kick xrange zrange step_size
                transverse_on b) as Hrun. cbv zeta in Hrun.
  rewrite RegularGridInterpolator_ok in Hrun
    by (destruct Hg as (? & ? & ?); repeat split;
        rewrite ?shape_kick_field; done).
  destruct (slope b) as [p|e] eqn:Hs.
  { exfalso. apply Hfit, fit_defined_slope. eauto. }
  assert (x_transform b = Raise e) as Hxt
    by (unfold x_transform; rewrite Hs; reflexivity).
  rewrite Hxt in Hrun. exists e. split; [exact Hrun|].
  unfold slope in Hs. split.
  - intros Hz. rewrite Hz in Hs. cbn in Hs. injection Hs as <-. eauto.
  - intros Hz.
    assert (0 < length (z b))%nat as Hn
      by (destruct (z b); [done | simpl; lia]).
    rewrite polyfit_unfold in Hs by done. cbv zeta in Hs.
    repeat case_bool_decide; try discriminate. injection Hs as <-. eauto.
Qed.



Lemma pz_after (dE_dct x_kick : list (list Qc))
    (xrange zrange : list Qc) (step_size : Qc) (transverse_on : bool)
    (b : Beam) (xt : list Qc) :
  wake_grid xrange zrange dE_dct ->
  (transverse_on = true -> wake_grid xrange zrange x_kick) ->
  x_transform b = Return xt ->
  exists b',
    apply_wakes np_std dE_dct x_kick xrange zrange step_size transverse_on b
    = (Return tt, b')
    ∧ forall i p u v,
        pz b !! i = Some p -> xt !! i = Some u -> z b !! i = Some v ->
        pz b' !! i
        = Some (p + wake_kick xrange zrange step_size (init_energy b)
                      dE_dct (u, v)).
Proof.
  intros Hg Hk Hxt. destruct (x_transform_slope b xt Hxt) as (p & Hp & ->).
  eexists. split; [now apply (apply_wakes_eq _ _ _ _ _ _ b p Hg Hk)|].
  intros i q u v Hq Hu Hv. unfold pz at 1. cbn. fold (pz b). unfold Np.add.
  rewrite lookup_zip_with, list_lookup_fmap, lookup_zip_with, Hq, Hu, Hv.
  reflexivity.
Qed.



(** Inside a cell the normalised distance is between 0 and 1. *)
Lemma norm_distance_bounds (lo hi u : Qc) :
  lo < hi -> lo ≤ u -> u ≤ hi ->
  0 ≤ (u - lo) / (hi - lo) ∧ 0 ≤ 1 - (u - lo) / (hi - lo).
Proof.
  intros Hlt Hlo Hhi.
  assert (0 < hi - lo) as Hd.
  { apply (proj2 (Qcplus_lt_mono_r 0 (hi - lo) lo)).
    now replace (0 + lo) with lo by ring;
      replace (hi - lo + lo) with hi by ring. }
  assert (hi - lo <> 0) as Hd0
    by (intros E; rewrite E in Hd; now apply Qclt_not_eq in Hd).
  assert (0 ≤ / (hi - lo)) as Hinv by now apply Qclt_le_weak, Qcinv_pos.
  assert (forall w, lo ≤ w -> 0 ≤ w - lo) as Hsub.
  { intros w Hw. apply (proj2 (Qcplus_le_mono_r 0 (w - lo) lo)).
    now replace (0 + lo) with lo by ring;
      replace (w - lo + lo) with w by ring. }
  split.
  - unfold Qcdiv. apply Qcmult_nonneg_nonneg; [now apply Hsub | done].
  - replace (1 - (u - lo) / (hi - lo)) with ((hi - u) * / (hi - lo))
      by (field; done).
    apply Qcmult_nonneg_nonneg; [|done].
    apply (proj2 (Qcplus_le_mono_r 0 (hi - u) u)).
    now replace (0 + u) with u by ring;
      replace (hi - u + u) with hi by ring.
Qed.

(** A blend with weights between 0 and 1 stays between the bounds of
    the four values. *)
Lemma blend_bounds (tx tz v00 v01 v10 v11 lo hi : Qc) :
  0 ≤ tx -> 0 ≤ 1 - tx -> 0 ≤ tz -> 0 ≤ 1 - tz ->
  lo ≤ v00 ≤ hi -> lo ≤ v01 ≤ hi -> lo ≤ v10 ≤ hi -> lo ≤ v11 ≤ hi ->
  lo ≤ (1 - tx) * (1 - tz) * v00 + (1 - tx) * tz * v01
       + tx * (1 - tz) * v10 + tx * tz * v11 ≤ hi.
Proof.
  intros Hx Hx' Hz Hz' [L00 U00] [L01 U01] [L10 U10] [L11 U11].
  assert (forall a c, a ≤ c -> 0 ≤ c - a) as Hsub.
  { intros a c Hac. apply (proj2 (Qcplus_le_mono_r 0 (c - a) a)).
    now replace (0 + a) with a by ring;
      replace (c - a + a) with c by ring. }
  assert (forall w1 w2 d, 0 ≤ w1 -> 0 ≤ w2 -> 0 ≤ d -> 0 ≤ w1 * w2 * d) as Hw
    by (intros; repeat apply Qcmult_nonneg_nonneg; done).
  split; apply Qcle_minus_iff.
  - replace ((1 - tx) * (1 - tz) * v00 + (1 - tx) * tz * v01
             + tx * (1 - tz) * v10 + tx * tz * v11 + - lo)
      with ((1 - tx) * (1 - tz) * (v00 - lo) + (1 - tx) * tz * (v01 - lo)
            + tx * (1 - tz) * (v10 - lo) + tx * tz * (v11 - lo)) by ring.
    repeat apply Qcplus_nonneg_nonneg; apply Hw; auto.
  - replace (hi + - ((1 - tx) * (1 - tz) * v00 + (1 - tx) * tz * v01
                     + tx * (1 - tz) * v10 + tx * tz * v11))
      with ((1 - tx) * (1 - tz) * (hi - v00) + (1 - tx) * tz * (hi - v01)
            + tx * (1 - tz) * (hi - v10) + tx * tz * (hi - v11)) by ring.
    repeat apply Qcplus_nonneg_nonneg; apply Hw; auto.
Qed.

Lemma wake_kick_bounds (xr zr : list Qc) (st E : Qc) (f : list (list Qc))
    (lo hi : Qc) (pt : Qc * Qc) :
  Scipy.strictly_ascending xr = true -> (2 <= length xr)%nat ->
  Scipy.strictly_ascending zr = true -> (2 <= length zr)%nat ->
  lo ≤ 0 -> 0 ≤ hi ->
  (forall a k, (a < length xr)%nat -> (k < length zr)%nat ->
               lo ≤ st * Scipy.item f a k * e6 / E ≤ hi) ->
  lo ≤ wake_kick xr zr st E f pt ≤ hi.
Proof.
  intros Ax Lx Az Lz Hlo Hhi Hb. unfold wake_kick.
  destruct (Scipy.out_of_bounds xr (fst pt)) eqn:Hox.
  { unfold Scipy.call1. cbn [Scipy.grid fst snd Scipy.fill_value].
    rewrite Hox. cbn [orb]. done. }
  destruct (Scipy.out_of_bounds zr (snd pt)) eqn:Hoz.
  { unfold Scipy.call1. cbn [Scipy.grid fst snd Scipy.fill_value].
    rewrite Hox, Hoz. cbn [orb]. done. }
  rewrite call1_inside by done. cbv zeta.
  destruct (cell_bracket xr (fst pt) Ax Lx Hox) as (Hi & Hi1 & Hi2 & Hi3).
  destruct (cell_bracket zr (snd pt) Az Lz Hoz) as (Hj & Hj1 & Hj2 & Hj3).
  destruct (norm_distance_bounds _ _ _ Hi3 Hi1 Hi2) as [Tx Tx'].
  destruct (norm_distance_bounds _ _ _ Hj3 Hj1 Hj2) as [Tz Tz'].
  rewrite !item_kick_field.
  apply blend_bounds; try done; apply Hb; lia.
Qed.

(** X19.  The interpolation does not overshoot: when every converted
    sample [step_size * dE_dct * 1e6 / init_energy] lies between [lo <= 0]
    and [hi >= 0], every particle's [pz] moves by an amount between [lo]
    and [hi], inside the mesh or not. *)
Theorem apply_wakes_no_overshoot (dE_dct x_kick : list (list Qc))
    (xrange zrange : list Qc) (step_size lo hi : Qc) (transverse_on : bool)
    (b : Beam) :
  wake_grid xrange zrange dE_dct ->
  (transverse_on = true -> wake_grid xrange zrange x_kick) ->
  (2 <= length xrange)%nat -> (2 <= length zrange)%nat ->
  well_formed (particle b) ->
  fit_defined b ->
  init_energy b <> 0 ->
  lo ≤ 0 -> 0 ≤ hi ->
  (forall a k, (a < length xrange)%nat -> (k < length zrange)%nat ->
               lo ≤ step_size * Scipy.item dE_dct a k * e6 / init_energy b
               ≤ hi) ->
  exists b',
    apply_wakes np_std dE_dct x_kick xrange zrange step_size transverse_on b
    = (Return tt, b')
    ∧ forall i p,
        pz b !! i = Some p ->
        exists k, pz b' !! i = Some (p + k) ∧ lo ≤ k ≤ hi.
Proof.
  intros Hg Hk Lx Lz (_ & _ & _ & Hlz & Hlpz) Hfit _ Hlo Hhi Hb.
  destruct (fit_defined_x_transform b Hfit) as (q & Hq & Hxt).
  destruct (pz_after dE_dct x_kick xrange zrange step_size transverse_on b _
              Hg Hk Hxt) as (b' & Hrun & Hpz).
  exists b'. split; [exact Hrun|]. intros i p Hp.
  assert (i < length (x b))%nat as Hi
    by (apply lookup_lt_Some in Hp; unfold pz in Hp; unfold x; lia).
  destruct (lookup_lt_is_Some_2 (z b) i) as [v Hv]; [unfold z, x in *; lia|].
  destruct (lookup_lt_is_Some_2 (residuals (fst q) (snd q) (z b) (x b)) i)
    as [u Hu].
  { unfold residuals. rewrite length_resid by (unfold z, x; lia).
    unfold z, x in *. lia. }
  eexists. split; [apply (Hpz i p u v Hp Hu Hv)|].
  destruct Hg as (Ax & Az & _). now apply wake_kick_bounds.
Qed.

End Wakes.

(** ** The constructor, further *)

Section Construction2.

Context (MC2 : Qc) (np_std : list Qc -> Qc).
Context (np_loadtxt : value -> outcome ndarray).
Context (PG : Type) (pg_charge : PG -> Qc) (pg_energy : PG -> list Qc).
Context (Generator_run ParticleGroup : value -> outcome PG).
Context (openpmd_to_bmadx_particles :
           PG -> Qc -> Qc -> Qc -> outcome Particle.t).

Abbreviation init :=
  (__init__ MC2 np_std np_loadtxt PG pg_charge pg_energy Generator_run
     ParticleGroup openpmd_to_bmadx_particles).

Lemma check_inputs_no_style (input_beam : gmap string value) :
  input_beam !! "style" = None ->
  check_inputs input_beam
  = Raise (AssertionError "ERROR: input_beam must have keyword <style>").
Proof.
  intros Hsty. unfold check_inputs.
  rewrite bool_decide_eq_false_2; [reflexivity|].
  rewrite elem_of_dom, Hsty. now intros [? ?].
Qed.

Lemma check_inputs_bad_style (input_beam : gmap string value) (sty : value) :
  input_beam !! "style" = Some sty -> required_for sty = None ->
  check_inputs input_beam
  = Raise (Exception "input beam parsing Error: invalid input style").
Proof.
  intros Hsty HR. unfold check_inputs, getitem. rewrite Hsty.
  rewrite bool_decide_eq_true_2 by (apply elem_of_dom; eauto).
  cbn [assert bind]. unfold required_for in HR.
  repeat case_bool_decide; try discriminate. reflexivity.
Qed.

Lemma check_inputs_ok (input_beam : gmap string value) (sty : value)
    (R : list string) :
  input_beam !! "style" = Some sty -> required_for sty = Some R ->
  (forall k, k ∈ dom input_beam -> k ∈ R ++ ["verbose"]) ->
  (forall r, r ∈ R -> r ∈ dom input_beam) ->
  check_inputs input_beam = Return R.
Proof.
  intros Hsty HR Hk Hr.
  destruct (check_inputs_cases input_beam sty R Hsty HR)
    as [(Hc & _) | [_ [(k & Hkd & Hkn) | (r & Hrr & Hrn)]]];
    [done | exfalso; eauto | exfalso; eauto].
Qed.

(** X1.  A dictionary without the key ['style'] is refused by the first
    assertion of [check_inputs], whatever else it holds, and so by the
    constructor. *)
Theorem init_missing_style (input_beam : gmap string value) :
  input_beam !! "style" = None ->
  check_inputs input_beam
  = Raise (AssertionError "ERROR: input_beam must have keyword <style>")
  ∧ init input_beam
    = Raise (AssertionError "ERROR: input_beam must have keyword <style>").
Proof.
  intros Hsty. pose proof (check_inputs_no_style input_beam Hsty) as Hc.
  split; [exact Hc|]. unfold __init__. rewrite Hc. reflexivity.
Qed.

(** X2.  A style that is none of ['from_file'], ['distgen'] and
    ['ParticleGroup'] (a value that is not a string included) raises the
    plain [Exception] of [check_inputs], whatever the other keys are. *)
Theorem init_invalid_style (input_beam : gmap string value) (sty : value) :
  input_beam !! "style" = Some sty ->
  sty <> VStr "from_file" -> sty <> VStr "distgen" ->
  sty <> VStr "ParticleGroup" ->
  check_inputs input_beam
  = Raise (Exception "input beam parsing Error: invalid input style")
  ∧ init input_beam
    = Raise (Exception "input beam parsing Error: invalid input style").
Proof.
  intros Hsty H1 H2 H3.
  assert (required_for sty = None) as HR
    by (unfold required_for; now rewrite !bool_decide_eq_false_2).
  pose proof (check_inputs_bad_style input_beam sty Hsty HR) as Hc.
  split; [exact Hc|]. unfold __init__. rewrite Hc. reflexivity.
Qed.

(** X3.  [check_inputs] returns exactly on the dictionaries whose style
    is one of the three, whose keys are all among the required fields of
    that style and ['verbose'], and which hold every required field; what
    it returns is the list of the required fields. *)
Theorem check_inputs_accepts (input_beam : gmap string value)
    (R : list string) :
  check_inputs input_beam = Return R
  <-> exists sty,
        input_beam !! "style" = Some sty
        ∧ required_for sty = Some R
        ∧ (forall k, k ∈ dom input_beam -> k ∈ R ++ ["verbose"])
        ∧ (forall r, r ∈ R -> r ∈ dom input_beam).
Proof.
  split.
  - intros Hc. destruct (input_beam !! "style") as [sty|] eqn:Hsty.
    + destruct (required_for sty) as [R'|] eqn:HR.
      * destruct (check_inputs_cases input_beam sty R' Hsty HR)
          as [(Hc' & Hk & Hr) | [[msg Hc'] _]]; [|congruence].
        assert (R' = R) as -> by congruence. exists sty. done.
      * rewrite (check_inputs_bad_style input_beam sty Hsty HR) in Hc.
        discriminate.
    + rewrite (check_inputs_no_style input_beam Hsty) in Hc. discriminate.
  - intros (sty & Hsty & HR & Hk & Hr).
    now apply (check_inputs_ok input_beam sty R).
Qed.

(** X4.  The raw-file style, when all is well: the dictionary holds the
    four required fields and nothing but them and ['verbose'], the energy
    is a number, the file yields a table of six columns and some particle
    has [z] other than 0.  The constructor returns an object whose
    coordinates are the six columns in the order x, px, y, py, z, pz, with
    [s = 0], [p0c] the given energy and [mc2 = MC2]; charge and energy
    are those of the dictionary, [_init_gamma] is [energy / MC2]; position
    and step are 0; there is one particle per row, and the cached
    statistics are consistent. *)
Theorem init_from_file (input_beam : gmap string value) (f chg : value)
    (en : Qc) (rows : list (list Qc)) :
  input_beam !! "style" = Some (VStr "from_file") ->
  (forall k, k ∈ dom input_beam ->
             k ∈ ["style"; "beamfile"; "charge"; "energy"; "verbose"]) ->
  input_beam !! "beamfile" = Some f ->
  input_beam !! "charge" = Some chg ->
  input_beam !! "energy" = Some (VFloat en) ->
  np_loadtxt f = Return (Array2 rows) ->
  snd (Scipy.shape rows) = 6%nat ->
  Exists (fun r => nth 4 r 0 <> 0) rows ->
  MC2 <> 0 ->
  exists b,
    init input_beam = Return b
    ∧ particle b
      = Particle.Particle
          (column (Array2 rows) 0) (column (Array2 rows) 1)
          (column (Array2 rows) 2) (column (Array2 rows) 3)
          (column (Array2 rows) 4) (column (Array2 rows) 5) 0 en MC2
    ∧ _charge b = chg ∧ _init_energy b = en ∧ _init_gamma b = en / MC2
    ∧ position b = 0 ∧ step b = 0%nat
    ∧ input_beam_config b = input_beam
    ∧ n_particle b = length rows
    ∧ well_formed (particle b)
    ∧ status_consistent np_std b.
Proof.
  intros Hsty Hk Hf Hchg Hen Hload Hcols Hz _.
  assert (check_inputs input_beam
          = Return ["style"; "beamfile"; "charge"; "energy"]) as Hc.
  { apply (check_inputs_ok input_beam (VStr "from_file")); try done.
    intros r Hr. apply elem_of_dom.
    repeat (apply elem_of_cons in Hr as [-> | Hr]; [eauto|]).
    inversion Hr. }
  set (P := Particle.Particle
              (column (Array2 rows) 0) (column (Array2 rows) 1)
              (column (Array2 rows) 2) (column (Array2 rows) 3)
              (column (Array2 rows) 4) (column (Array2 rows) 5) 0 en MC2).
  set (self := mkBeam input_beam (VStr "from_file")
                 ["style"; "beamfile"; "charge"; "energy"] chg en P
                 (en / MC2) 0 0 None None None None None).
  assert (exists q, slope self = Return q) as [q Hq].
  { apply polyfit_returns_iff. split.
    - unfold self, P, z, x. cbn. now rewrite !length_map.
    - unfold self, P, z. cbn. apply List.Exists_exists.
      apply List.Exists_exists in Hz as (r & Hr & Hr0).
      exists (nth 4 r 0). split; [|done].
      exact (in_map (fun r0 => nth 4 r0 0) rows r Hr). }
  exists (refreshed np_std q self).
  split.
  - unfold __init__. rewrite Hc. cbn [bind]. unfold getitem at 1.
    rewrite Hsty. cbn [bind]. unfold load.
    rewrite bool_decide_eq_true_2 by done. unfold getitem.
    rewrite Hf, Hchg, Hen. cbn [bind]. rewrite Hload.
    cbn [bind shape_1]. rewrite Hcols. cbn [Nat.eqb assert bind as_float].
    fold P. fold self. now rewrite (update_status_eq np_std self q Hq).
  - split; [reflexivity|]. do 6 (split; [reflexivity|]).
    split; [unfold n_particle; cbn; now rewrite length_map|].
    split; [unfold well_formed; cbn; now rewrite !length_map|].
    now apply refreshed_consistent.
Qed.

(** X5.  The distgen style: on a dictionary that [check_inputs] accepts,
    an exception of the generator or of the converter is the exception of
    the constructor; when both return and the fit is defined on the
    converted particles, the object holds them, the charge of the
    generated group and the mean of its energies as initial energy. *)
Theorem init_distgen (input_beam : gmap string value) (f : value) :
  input_beam !! "style" = Some (VStr "distgen") ->
  (forall k, k ∈ dom input_beam ->
             k ∈ ["style"; "distgen_input_file"; "verbose"]) ->
  input_beam !! "distgen_input_file" = Some f ->
  match Generator_run f with
  | Raise e => init input_beam = Raise e
  | Return pg =>
      match openpmd_to_bmadx_particles pg (Np.mean (pg_energy pg)) 0 MC2 with
      | Raise e => init input_beam = Raise e
      | Return p =>
          forall q, Np.polyfit (Particle.z p) (Particle.x p) = Return q ->
          exists b,
            init input_beam = Return b
            ∧ particle b = p
            ∧ _charge b = VFloat (pg_charge pg)
            ∧ _init_energy b = Np.mean (pg_energy pg)
            ∧ _init_gamma b = Np.mean (pg_energy pg) / MC2
            ∧ position b = 0 ∧ step b = 0%nat
            ∧ status_consistent np_std b
      end
  end.
Proof.
  intros Hsty Hk Hf.
  assert (check_inputs input_beam = Return ["style"; "distgen_input_file"])
    as Hc.
  { apply (check_inputs_ok input_beam (VStr "distgen")); try done.
    intros r Hr. apply elem_of_dom.
    repeat (apply elem_of_cons in Hr as [-> | Hr]; [eauto|]).
    inversion Hr. }
  assert (init input_beam
          = (pg <- Generator_run f ;;
             p <- openpmd_to_bmadx_particles pg (Np.mean (pg_energy pg)) 0
                    MC2 ;;
             match
               update_status np_std
                 (mkBeam input_beam (VStr "distgen")
                    ["style"; "distgen_input_file"] (VFloat (pg_charge pg))
                    (Np.mean (pg_energy pg)) p
                    (Np.mean (pg_energy pg) / MC2) 0 0
                    None None None None None)
             with
             | (Return _, self') => Return self'
             | (Raise e, _) => Raise e
             end)%py) as Hinit.
  { unfold __init__. rewrite Hc. cbn [bind]. unfold getitem at 1.
    rewrite Hsty. cbn [bind]. unfold load.
    rewrite bool_decide_eq_false_2 by discriminate.
    rewrite bool_decide_eq_true_2 by done. unfold getitem. rewrite Hf.
    cbn [bind]. destruct (Generator_run f) as [pg|e]; [|reflexivity].
    cbn [bind]. destruct (openpmd_to_bmadx_particles _ _ _ _) as [p|e];
      reflexivity. }
  rewrite Hinit. clear Hinit.
  destruct (Generator_run f) as [pg|e]; [|reflexivity].
  cbn [bind]. destruct (openpmd_to_bmadx_particles _ _ _ _) as [p|e];
    [|reflexivity].
  cbn [bind]. intros q Hq.
  set (self := mkBeam _ _ _ _ _ _ _ _ _ _ _ _ _ _).
  assert (slope self = Return q) as Hs by exact Hq.
  exists (refreshed np_std q self). split.
  - now rewrite (update_status_eq np_std self q Hs).
  - do 6 (split; [reflexivity|]). now apply refreshed_consistent.
Qed.

(** X6.  No dictionary of style ['ParticleGroup'] makes an object: if it
    holds the key ['ParticleGroup_h5'] that the constructor reads,
    [check_inputs] refuses that key; if it does not, the constructor
    fails on reading it, unless another assertion failed before. *)
Theorem init_ParticleGroup_never (input_beam : gmap string value) :
  input_beam !! "style" = Some (VStr "ParticleGroup") ->
  init input_beam = Raise (KeyError "ParticleGroup_h5")
  ∨ exists msg, init input_beam = Raise (AssertionError msg).
Proof.
  intros Hsty.
  destruct (check_inputs_cases input_beam (VStr "ParticleGroup")
              ["style"; "particleGroup_h5"] Hsty eq_refl)
    as [(Hc & Hk & _) | [[msg Hc] _]].
  - left. unfold __init__. rewrite Hc. cbn [bind]. unfold getitem at 1.
    rewrite Hsty. cbn [bind]. unfold load.
    rewrite !bool_decide_eq_false_2 by discriminate. unfold getitem.
    destruct (input_beam !! "ParticleGroup_h5") as [v|] eqn:Hv; [|done].
    exfalso. assert ("ParticleGroup_h5" ∈ dom input_beam) as Hin
      by (apply elem_of_dom; eauto).
    apply Hk in Hin.
    repeat (apply elem_of_cons in Hin as [Hin | Hin]; [discriminate|]).
    inversion Hin.
  - right. exists msg. unfold __init__. rewrite Hc. reflexivity.
Qed.

(** X7.  A coordinate file that [np.loadtxt] returns as a 1-D array (a
    file of a single particle is one) stops the constructor at
    [coords.shape[1]] with an [IndexError], six numbers or not. *)
Theorem init_one_dimensional (input_beam : gmap string value) (f : value)
    (v : list Qc) :
  input_beam !! "style" = Some (VStr "from_file") ->
  (forall k, k ∈ dom input_beam ->
             k ∈ ["style"; "beamfile"; "charge"; "energy"; "verbose"]) ->
  input_beam !! "beamfile" = Some f ->
  "charge" ∈ dom input_beam -> "energy" ∈ dom input_beam ->
  np_loadtxt f = Return (Array1 v) ->
  init input_beam = Raise (IndexError "tuple index out of range").
Proof.
  intros Hsty Hk Hf Hchg Hen Hload.
  assert (check_inputs input_beam
          = Return ["style"; "beamfile"; "charge"; "energy"]) as Hc.
  { apply (check_inputs_ok input_beam (VStr "from_file")); try done.
    intros r Hr.
    repeat (apply elem_of_cons in Hr as [-> | Hr];
            [try done; apply elem_of_dom; eauto|]).
    inversion Hr. }
  unfold __init__. rewrite Hc. cbn [bind]. unfold getitem at 1.
  rewrite Hsty. cbn [bind]. unfold load.
  rewrite bool_decide_eq_true_2 by done. unfold getitem at 1.
  rewrite Hf. cbn [bind]. rewrite Hload. reflexivity.
Qed.

End Construction2.

(** * The theorems at the sample data *)

Import Samples.

(** The embedding at work: a ramp [[0, 1], [2, 3]] on the sample mesh is
    1.5 in the middle and 3 in the far corner, and 0 beyond the mesh. *)
Example ramp_middle :
  Scipy.call1 (Scipy.Interpolator (axis, axis) [[0; 1]; [2; 1 + 2]] 0) (0, 0)
  = (1 + 2) / 2.
Proof. by_compute. Qed.

Example ramp_corner :
  Scipy.call1 (Scipy.Interpolator (axis, axis) [[0; 1]; [2; 1 + 2]] 0) (2, 2)
  = 1 + 2.
Proof. by_compute. Qed.

Example ramp_beyond :
  Scipy.call1 (Scipy.Interpolator (axis, axis) [[0; 1]; [2; 1 + 2]] 0)
    (0, 1 + 2) = 0.
Proof. by_compute. Qed.

(** The kick of the sample field on the two sample particles: the one
    inside the mesh gains 1, the one beyond it gains nothing. *)
Example two_particles_kick :
  pz (snd (apply_wakes np_std ones ones axis axis 1 false two_particles))
  = [1; 0].
Proof. by_compute. Qed.

(** A fit of three points off a line: [x = (0, 1, 4)] at [z = (0, 1, 2)]
    gives the slope 2 and the intercept -1/3. *)
Example polyfit_parabola :
  Np.polyfit [0; 1; 2] [0; 1; 2 + 2] = Return (2, - (1 / (1 + 2))).
Proof. by_compute. Qed.

Lemma apply_wakes_energy_kick_witness :
  (x_transform three_particles = Return [0; 0; 0]
   ∧ exists b',
       apply_wakes np_std ones [] axis axis 1 false three_particles
       = (Return tt, b')
       ∧ pz b' = [0 + 1; 0 + 1; 0 + 1])
  ∧ (wake_grid axis axis ones
     ∧ exists b',
         apply_wakes np_std ones [] axis axis 1 false three_particles
         = (Return tt, b')
         ∧ pz b'
           = Np.add (pz three_particles)
               (map (Scipy.call1
                       (Scipy.Interpolator (axis, axis)
                          (kick_field 1 (init_energy three_particles) ones) 0))
                  (zip [0; 0; 0] (z three_particles)))
         ∧ forall i p u v,
             pz three_particles !! i = Some p -> [0; 0; 0] !! i = Some u ->
             z three_particles !! i = Some v ->
             pz b' !! i
             = Some (p + Scipy.call1
                           (Scipy.Interpolator (axis, axis)
                              (kick_field 1 (init_energy three_particles) ones)
                              0) (u, v))).
Proof.
  split.
  - apply (proj2 (apply_wakes_energy_kick np_std) [] axis axis false
             three_particles 0 0 0);
      try reflexivity; try (repeat split; reflexivity); by_decide.
  - assert (wake_grid axis axis ones) as Hg by (repeat split; by_compute).
    split; [exact Hg|].
    apply (proj1 (apply_wakes_energy_kick np_std) ones [] axis axis 1 false
             three_particles [0; 0; 0] Hg);
      [discriminate | repeat split; reflexivity | by_compute | by_decide].
Defined.

Lemma apply_wakes_shape_mismatch_witness :
  Scipy.shape [[1]] <> (length axis, length axis)
  ∧ exists msg,
      apply_wakes np_std [[1]] [] axis axis 1 false three_particles
      = (Raise (ValueError msg), three_particles).
Proof.
  assert (Scipy.shape [[1]] <> (length axis, length axis)) as H
    by (cbn; discriminate).
  split; [exact H|].
  apply (proj1 (apply_wakes_shape_mismatch np_std [[1]] [] axis axis 1 false
                  three_particles)).
  exact H.
Defined.

Lemma apply_wakes_outside_hull_witness :
  wake_grid axis axis ones
  ∧ x_transform two_particles = Return [0; 0]
  ∧ outside_hull axis axis (0, 1 + 2)
  ∧ exists b',
      apply_wakes np_std ones ones axis axis 1 true two_particles
      = (Return tt, b')
      ∧ pz b' !! 1%nat = pz two_particles !! 1%nat
      ∧ px b' !! 1%nat = px two_particles !! 1%nat.
Proof.
  assert (wake_grid axis axis ones) as Hg by (repeat split; by_compute).
  assert (x_transform two_particles = Return [0; 0]) as Hxt by by_compute.
  assert (outside_hull axis axis (0, 1 + 2)) as Hout
    by (right; right; right; by_decide).
  split; [exact Hg|]. split; [exact Hxt|]. split; [exact Hout|].
  assert (well_formed (particle two_particles)) as Hwf
    by (repeat split; reflexivity).
  destruct (apply_wakes_outside_hull np_std ones ones axis axis 1 true
              two_particles [0; 0] Hg (fun _ => Hg) Hwf Hxt)
    as (b' & Hrun & H).
  exists b'. split; [exact Hrun|].
  apply (H 1%nat 0 (1 + 2)); [reflexivity | reflexivity | exact Hout].
Defined.

Lemma energy_gamma_affine_witness :
  MC2 <> 0
  ∧ pz three_particles !! 0%nat = Some 0
  ∧ energy three_particles !! 0%nat
    = Some ((0 + 1) * Particle.p0c (particle three_particles))
  ∧ gamma MC2 three_particles !! 0%nat
    = Some ((0 + 1) * Particle.p0c (particle three_particles) / MC2).
Proof.
  assert (MC2 <> 0) as H by by_decide.
  split; [exact H|]. split; [reflexivity|].
  apply (proj2 (proj2 (energy_gamma_affine MC2 three_particles H)) 0%nat 0).
  reflexivity.
Defined.

Lemma apply_wakes_frame_witness :
  Particle.px
    (particle (snd (apply_wakes np_std ones [] axis axis 1 false
                      three_particles)))
  = Particle.px (particle three_particles).
Proof.
  apply (apply_wakes_frame np_std ones [] axis axis 1 false three_particles).
  reflexivity.
Defined.

Lemma slope_fit_witness :
  length (z one_particle) = length (x one_particle)
  ∧ slope one_particle = Return (2 / (2 * 1), 2 / 2)
  ∧ exists a c,
      slope three_particles = Return (a, c)
      ∧ forall a' c',
          squared_error a c (z three_particles) (x three_particles)
          ≤ squared_error a' c' (z three_particles) (x three_particles).
Proof.
  split; [reflexivity|]. split.
  - apply (proj1 (proj2 (slope_fit one_particle eq_refl)) 2 1);
      [reflexivity | reflexivity | by_decide].
  - apply (proj2 (proj2 (slope_fit three_particles eq_refl)));
      [cbn; lia | by_decide].
Defined.



Lemma init_rejects_bad_input_witness :
  (exists msg,
     __init__ MC2 np_std loadtxt5 unit (fun _ => 0) (fun _ => []) no_pg no_pg
       convert extra_key_input = Raise (AssertionError msg))
  ∧ (exists msg,
       __init__ MC2 np_std loadtxt5 unit (fun _ => 0) (fun _ => []) no_pg
         no_pg convert from_file_input = Raise (AssertionError msg)).
Proof.
  split.
  - apply (proj1 (init_rejects_bad_input MC2 np_std loadtxt5 unit (fun _ => 0)
                    (fun _ => []) no_pg no_pg convert extra_key_input
                    (VStr "from_file")
                    ["style"; "beamfile"; "charge"; "energy"]
                    eq_refl eq_refl)).
    left. exists "colour". split; [by_decide | by_decide].
  - apply (proj1 (proj2
             (init_rejects_bad_input MC2 np_std loadtxt5 unit (fun _ => 0)
                (fun _ => []) no_pg no_pg convert from_file_input
                (VStr "from_file")
                ["style"; "beamfile"; "charge"; "energy"]
                eq_refl eq_refl)) eq_refl).
    intros f _. exists [[0; 0; 0; 0; 0]; [1; 1; 1; 1; 1]].
    split; [reflexivity | cbn; lia].
Defined.

Lemma init_ParticleGroup_KeyError_witness :
  check_inputs ParticleGroup_input = Return ["style"; "particleGroup_h5"]
  ∧ __init__ MC2 np_std loadtxt5 unit (fun _ => 0) (fun _ => []) no_pg no_pg
      convert ParticleGroup_input = Raise (KeyError "ParticleGroup_h5").
Proof.
  apply init_ParticleGroup_KeyError; [reflexivity | by_decide |].
  intros k Hk. apply elem_of_dom in Hk as [v Hv].
  unfold ParticleGroup_input in Hv.
  apply lookup_insert_Some in Hv as [[<- _] | [_ Hv]]; [set_solver|].
  apply lookup_insert_Some in Hv as [[<- _] | [_ Hv]]; [set_solver|].
  now rewrite lookup_empty in Hv.
Defined.

(** C6, the claim as worded: a single particle is fewer than two, and
    [slope] returns for it, it does not fail. *)
Lemma slope_single_particle_returns :
  (n_particle one_particle < 2)%nat
  ∧ slope one_particle = Return (1, 1).
Proof. split; [cbn; lia | by_compute]. Qed.

(** ** The further theorems at the sample data *)

Ltac sample_keys m :=
  let k := fresh "k" in
  let Hk := fresh "Hk" in
  let v := fresh "v" in
  let Hv := fresh "Hv" in
  intros k Hk; apply elem_of_dom in Hk as [v Hv]; unfold m in Hv;
  repeat (apply lookup_insert_Some in Hv as [[<- _] | [_ Hv]];
          [by_decide|]);
  now rewrite lookup_empty in Hv.

Lemma init_missing_style_witness :
  check_inputs no_style_input
  = Raise (AssertionError "ERROR: input_beam must have keyword <style>")
  ∧ __init__ MC2 np_std loadtxt6 unit (fun _ => 0) (fun _ => []) no_pg no_pg
      convert no_style_input
    = Raise (AssertionError "ERROR: input_beam must have keyword <style>").
Proof. apply init_missing_style. reflexivity. Defined.

Lemma init_invalid_style_witness :
  check_inputs bad_style_input
  = Raise (Exception "input beam parsing Error: invalid input style")
  ∧ __init__ MC2 np_std loadtxt6 unit (fun _ => 0) (fun _ => []) no_pg no_pg
      convert bad_style_input
    = Raise (Exception "input beam parsing Error: invalid input style").
Proof.
  apply (init_invalid_style MC2 np_std loadtxt6 unit (fun _ => 0)
           (fun _ => []) no_pg no_pg convert bad_style_input
           (VStr "gaussian")); [reflexivity | discriminate..].
Defined.

Lemma check_inputs_accepts_witness :
  check_inputs from_file_input
  = Return ["style"; "beamfile"; "charge"; "energy"].
Proof.
  apply (proj2 (check_inputs_accepts from_file_input
                  ["style"; "beamfile"; "charge"; "energy"])).
  exists (VStr "from_file"). split; [reflexivity|]. split; [reflexivity|].
  split.
  - sample_keys from_file_input.
  - intros r Hr.
    repeat (apply elem_of_cons in Hr as [-> | Hr]; [by_decide|]).
    inversion Hr.
Defined.

Lemma init_from_file_witness :
  exists b,
    __init__ MC2 np_std loadtxt6 unit (fun _ => 0) (fun _ => []) no_pg no_pg
      convert from_file_input = Return b
    ∧ x b = [0; 1] ∧ z b = [0; 1]
    ∧ _init_gamma b = e6 / MC2
    ∧ position b = 0 ∧ step b = 0%nat
    ∧ n_particle b = 2%nat
    ∧ status_consistent np_std b.
Proof.
  destruct (init_from_file MC2 np_std loadtxt6 unit (fun _ => 0)
              (fun _ => []) no_pg no_pg convert from_file_input
              (VStr "beam.dat") (VFloat 1) e6 six_columns)
    as (b & Hb & Hp & _ & _ & Hg & Hpos & Hst & _ & Hn & _ & Hc).
  - reflexivity.
  - sample_keys from_file_input.
  - reflexivity.
  - reflexivity.
  - reflexivity.
  - reflexivity.
  - reflexivity.
  - right. left. by_decide.
  - by_decide.
  - exists b. split; [exact Hb|]. unfold x, z. rewrite Hp.
    split; [reflexivity|]. split; [reflexivity|]. split; [exact Hg|].
    split; [exact Hpos|]. split; [exact Hst|]. split; [exact Hn | exact Hc].
Defined.

Lemma init_distgen_witness :
  exists b,
    __init__ MC2 np_std loadtxt6 unit (fun _ => 1) (fun _ => [e6; e6])
      gen_ok no_pg convert_ok distgen_input = Return b
    ∧ particle b = particle three_particles
    ∧ _charge b = VFloat 1
    ∧ status_consistent np_std b.
Proof.
  pose proof (init_distgen MC2 np_std loadtxt6 unit (fun _ => 1)
                (fun _ => [e6; e6]) gen_ok no_pg convert_ok distgen_input
                (VStr "gen.yaml") eq_refl) as H.
  cbn [gen_ok convert_ok] in H.
  destruct H with (q := (1, 0) : Qc * Qc)
    as (b & Hb & Hp & Hc & _ & _ & _ & _ & Hs).
  - sample_keys distgen_input.
  - reflexivity.
  - by_compute.
  - exists b. split; [exact Hb|]. split; [exact Hp|].
    split; [exact Hc | exact Hs].
Defined.

Lemma init_ParticleGroup_never_witness :
  __init__ MC2 np_std loadtxt6 unit (fun _ => 0) (fun _ => []) no_pg no_pg
    convert ParticleGroup_input = Raise (KeyError "ParticleGroup_h5")
  ∨ exists msg,
      __init__ MC2 np_std loadtxt6 unit (fun _ => 0) (fun _ => []) no_pg
        no_pg convert ParticleGroup_input = Raise (AssertionError msg).
Proof. apply init_ParticleGroup_never. reflexivity. Defined.

Lemma init_one_dimensional_witness :
  __init__ MC2 np_std loadtxt1 unit (fun _ => 0) (fun _ => []) no_pg no_pg
    convert from_file_input = Raise (IndexError "tuple index out of range").
Proof.
  apply (init_one_dimensional MC2 np_std loadtxt1 unit (fun _ => 0)
           (fun _ => []) no_pg no_pg convert from_file_input
           (VStr "beam.dat") [0; 0; 0; 0; 1; 0]);
    [reflexivity | sample_keys from_file_input | reflexivity
    | by_decide | by_decide | reflexivity].
Defined.

Lemma update_status_identity_iff_witness :
  update_status np_std (refreshed np_std (1, 0) three_particles)
  = (Return tt, refreshed np_std (1, 0) three_particles).
Proof.
  apply (proj1 (update_status_identity_iff np_std _)).
  apply refreshed_consistent. by_compute.
Defined.

Lemma track_two_elements_witness :
  exists b1 b2,
    track np_std unit drift tt 1 false three_particles = (Return tt, b1)
    ∧ track np_std unit drift tt 2 true b1 = (Return tt, b2)
    ∧ position b2 = position three_particles + 1 + 2
    ∧ step b2 = (step three_particles + 1)%nat
    ∧ status_consistent np_std b2.
Proof.
  destruct (track_two_elements np_std unit drift tt tt 1 2 three_particles
              (particle three_particles) (particle three_particles)
              (1, 0) (1, 0))
    as (b1 & b2 & H1 & H2 & _ & Hpos & Hst & _ & Hc);
    [reflexivity | reflexivity | by_compute | by_compute |].
  exists b1, b2. split; [exact H1|]. split; [exact H2|].
  split; [exact Hpos|]. split; [exact Hst | exact Hc].
Defined.

Lemma track_no_rollback_witness :
  exists e b',
    track np_std unit collapse tt 1 true three_particles = (Raise e, b')
    ∧ z b' = [0; 0; 0]
    ∧ position b' = position three_particles + 1
    ∧ step b' = (step three_particles + 1)%nat
    ∧ ~ status_consistent np_std b'.
Proof.
  destruct (track_no_rollback np_std unit collapse tt 1 true three_particles
              (Particle.Particle [- 1; 0; 1] [0; 0; 0] [0; 0; 0] [0; 0; 0]
                 [0; 0; 0] [0; 0; 0] 0 e6 MC2)
              (LinAlgError "SVD did not converge in Linear Least Squares"))
    as (b' & Hrun & Hp & Hpos & Hst & _ & _ & _ & Hn);
    [reflexivity | by_compute |].
  eexists _, b'. split; [exact Hrun|]. unfold z. rewrite Hp.
  split; [reflexivity|]. split; [exact Hpos|]. split; [exact Hst | exact Hn].
Defined.

Lemma slope_recovers_line_witness :
  slope three_particles = Return (1, 0)
  ∧ x_transform three_particles
    = Return (map (fun _ => 0) (z three_particles)).
Proof.
  apply (slope_recovers_line three_particles 1 0 (- 1) 1);
    [by_compute | by_decide | by_decide | by_decide].
Defined.

Lemma x_transform_centred_witness :
  fit_defined two_particles
  ∧ exists xt,
      x_transform two_particles = Return xt
      ∧ Np.sum xt = 0
      ∧ Np.sum (Np.mul xt (z two_particles)) = 0.
Proof.
  assert (fit_defined two_particles) as H
    by (split; [reflexivity | by_decide]).
  split; [exact H|].
  destruct (x_transform_centred two_particles H)
    as (xt & Hx & _ & H1 & Hz & _).
  exists xt. split; [exact Hx|]. split; [exact H1 | exact Hz].
Defined.

Lemma x_transform_removes_chirp_witness :
  x chirped = Np.add (x two_particles) (Np.polyval [1; 2] (z two_particles))
  ∧ exists xt,
      x_transform two_particles = Return xt
      ∧ x_transform chirped = Return xt.
Proof.
  assert (x chirped
          = Np.add (x two_particles)
              (Np.polyval [1; 2] (z two_particles))) as H by by_compute.
  split; [exact H|].
  apply (x_transform_removes_chirp two_particles chirped 1 2);
    [reflexivity | exact H | split; [reflexivity | by_decide]].
Defined.

Lemma mean_energy_affine_witness :
  mean_energy three_particles
  = (Np.mean (pz three_particles) + 1)
    * Particle.p0c (particle three_particles).
Proof. apply mean_energy_affine. cbn. lia. Defined.

Lemma sample_grid : wake_grid axis axis ones.
Proof. repeat split; by_compute. Qed.



Lemma sample_fit : fit_defined three_particles.
Proof. split; [reflexivity | by_decide]. Qed.

Lemma sample_well_formed : well_formed (particle three_particles).
Proof. repeat split; reflexivity. Qed.

Lemma sample_x_transform : x_transform three_particles = Return [0; 0; 0].
Proof. by_compute. Qed.

Lemma apply_wakes_transverse_kick_witness :
  exists b',
    apply_wakes np_std ones ones axis axis 1 true three_particles
    = (Return tt, b')
    ∧ px b'
      = Np.add (px three_particles)
          (map (wake_kick axis axis 1 (init_energy three_particles) ones)
             (zip [0; 0; 0] (z three_particles))).
Proof.
  destruct (proj2 (apply_wakes_transverse_kick np_std ones ones axis axis 1
                     three_particles [0; 0; 0] sample_grid sample_grid
                     sample_well_formed sample_x_transform ltac:(by_decide)))
    as (b' & Hrun & Hpx & _).
  exists b'. split; [exact Hrun | exact Hpx].
Defined.


Lemma apply_wakes_keeps_witness :
  well_formed
    (particle (snd (apply_wakes np_std ones ones axis axis 1 true
                      three_particles)))
  ∧ fit_defined (snd (apply_wakes np_std ones ones axis axis 1 true
                        three_particles)).
Proof.
  destruct (apply_wakes_keeps np_std ones ones axis axis 1 true
              three_particles) as (_ & _ & _ & _ & _ & _ & Hw & Hf).
  split; [exact (Hw sample_well_formed) | exact (proj1 Hf sample_fit)].
Defined.

Lemma apply_wakes_fit_undefined_witness :
  exists msg,
    apply_wakes np_std ones ones axis axis 1 true no_particles
    = (Raise (TypeError msg), no_particles).
Proof.
  destruct (apply_wakes_fit_undefined np_std ones ones axis axis 1 true
              no_particles sample_grid eq_refl) as (e & Hrun & He & _).
  - intros [_ H]. inversion H.
  - destruct (He eq_refl) as [msg ->]. exists msg. exact Hrun.
Defined.





Lemma apply_wakes_no_overshoot_witness :
  exists b',
    apply_wakes np_std ones ones axis axis 1 false three_particles
    = (Return tt, b')
    ∧ forall i p,
        pz three_particles !! i = Some p ->
        exists k, pz b' !! i = Some (p + k) ∧ 0 ≤ k ≤ 1.
Proof.
  apply (apply_wakes_no_overshoot np_std ones ones axis axis 1 0 1 false
           three_particles sample_grid);
    try exact sample_well_formed; try exact sample_fit;
    try discriminate; try (cbn; lia); try by_decide.
  intros [|[|a]] [|[|k]] Ha Hk; try by_decide; cbn in Ha, Hk; lia.
Defined.
